(** * The persistent state engine of Kernel-Add (LinuxKernel.py)

    A shallow embedding of [DatabaseManager], [ContainerEngine] and the two
    CLI commands that act on the store directly ([_cmd_crun],
    [_cmd_dbclean]), with the properties of the store proved about it.

    Conventions of the embedding.
    - A table is the list of its rows in rowid order; a [SELECT] without
      [ORDER BY] scans it in that order and [fetchone()] takes the first
      row of the result.
    - [INSERT OR REPLACE] deletes the rows that conflict on the primary key
      and appends the new row; [INSERT OR IGNORE] appends unless a row with
      that key is there.
    - [time.time()] readings, random draws and the line typed at a prompt
      are arguments of the operation that consumes them.
    - Outside [repair] the connection is healthy: no statement raises
      [sqlite3.Error], so the [except sqlite3.Error] handlers of the
      source are not entered.  Foreign keys are declared but SQLite does
      not enforce them unless [PRAGMA foreign_keys] is switched on, which
      the source never does.
    - [repair] is modelled on the files themselves, see [DatabaseFile]. *)

From Stdlib Require Import ZArith String Ascii List Lia.
From Stdlib Require Import Decimal DecimalString DecimalNat.
From Stdlib Require Hexadecimal HexadecimalString HexadecimalN.
From stdpp Require Import base strings list gmap sorting.

Open Scope Z_scope.

(** ** Rows of the seven tables *)

(** [packages(name PK, version, size, filename, installed_time,
    auto_installed, simulated)]; the two flags are INTEGER columns. *)
Record package_row := PackageRow {
  pkg_name : string;
  pkg_version : string;
  pkg_size : Z;
  pkg_filename : string;
  pkg_installed_time : Z;
  pkg_auto_installed : Z;
  pkg_simulated : Z
}.

(** [dependencies(package, depends_on, PK(package, depends_on))] *)
Record dependency_row := DependencyRow {
  dep_package : string;
  dep_depends_on : string
}.

(** [metadata(key PK, value)] *)
Record metadata_row := MetadataRow {
  meta_key : string;
  meta_value : string
}.

(** [hidden_files(path PK, content BLOB, size, created_time, modified_time,
    permissions DEFAULT 'rw-r--r--')] *)
Record hidden_file_row := HiddenFileRow {
  hf_path : string;
  hf_content : list Byte.byte;
  hf_size : Z;
  hf_created_time : Z;
  hf_modified_time : Z;
  hf_permissions : string
}.

(** [images(id PK, name, tag, size, created_time, base_image, layers)];
    [base_image] is NULL when [create_image] is called without one and
    [layers] holds the JSON text of the layer list. *)
Record image_row := ImageRow {
  img_id : string;
  img_name : string;
  img_tag : string;
  img_size : Z;
  img_created_time : Z;
  img_base_image : option string;
  img_layers : list string
}.

(** [containers(id PK, name UNIQUE, image_id, status, created_time,
    started_time, pid, ip_address, ports, volumes, env_vars, command)].
    [started_time] and [pid] are NULL until set; [ports], [volumes] and
    [env_vars] hold the [json.dumps] text of the value kept here. *)
Record container_row := ContainerRow {
  ctr_id : string;
  ctr_name : string;
  ctr_image_id : string;
  ctr_status : string;
  ctr_created_time : Z;
  ctr_started_time : option Z;
  ctr_pid : option Z;
  ctr_ip_address : string;
  ctr_ports : list string;
  ctr_volumes : list string;
  ctr_env_vars : list (string * string);
  ctr_command : string
}.

(** [volumes(name PK, mountpoint, size, created_time)] *)
Record volume_row := VolumeRow {
  vol_name : string;
  vol_mountpoint : string;
  vol_size : Z;
  vol_created_time : Z
}.

(** The database file: the four tables of [_init_database] and the three of
    [_init_container_tables]. *)
Record database := Database {
  packages : list package_row;
  dependencies : list dependency_row;
  metadata : list metadata_row;
  hidden_files : list hidden_file_row;
  images : list image_row;
  containers : list container_row;
  volumes : list volume_row
}.

Definition set_packages (d : database) (v : list package_row) : database :=
  Database v (dependencies d) (metadata d) (hidden_files d)
           (images d) (containers d) (volumes d).

Definition set_dependencies (d : database) (v : list dependency_row) : database :=
  Database (packages d) v (metadata d) (hidden_files d)
           (images d) (containers d) (volumes d).

Definition set_hidden_files (d : database) (v : list hidden_file_row) : database :=
  Database (packages d) (dependencies d) (metadata d) v
           (images d) (containers d) (volumes d).

Definition set_containers (d : database) (v : list container_row) : database :=
  Database (packages d) (dependencies d) (metadata d) (hidden_files d)
           (images d) v (volumes d).

#[global] Instance package_row_eq_dec : EqDecision package_row.
Proof. solve_decision. Defined.
#[global] Instance dependency_row_eq_dec : EqDecision dependency_row.
Proof. solve_decision. Defined.
#[global] Instance container_row_eq_dec : EqDecision container_row.
Proof. solve_decision. Defined.

(** ** DatabaseManager *)

Module DatabaseManager.

(** [1 if flag else 0] *)
Definition int_of_bool (b : bool) : Z := if b then 1 else 0.

(** [add_package]: INSERT OR REPLACE on the key [name]. *)
Definition add_package (now : Z) (name version : string) (size : Z)
    (filename : string) (auto_installed simulated : bool)
    (d : database) : database * bool :=
  let row := PackageRow name version size filename now
               (int_of_bool auto_installed) (int_of_bool simulated) in
  (set_packages d (filter (λ p, pkg_name p ≠ name) (packages d) ++ [row]), true).

(** [get_package]: SELECT * FROM packages WHERE name = ?, [fetchone()]. *)
Definition get_package (name : string) (d : database) : option package_row :=
  head (filter (λ p, pkg_name p = name) (packages d)).

(** [remove_package]: both DELETE statements, then commit, then [True]. *)
Definition remove_package (name : string) (d : database) : database * bool :=
  let d1 := set_packages d (filter (λ p, pkg_name p ≠ name) (packages d)) in
  let d2 := set_dependencies d1
              (filter (λ e, ¬ (dep_package e = name ∨ dep_depends_on e = name))
                      (dependencies d1)) in
  (d2, true).

(** [add_dependency]: INSERT OR IGNORE on the key (package, depends_on). *)
Definition add_dependency (package depends_on : string)
    (d : database) : database * bool :=
  let row := DependencyRow package depends_on in
  if decide (row ∈ dependencies d) then (d, true)
  else (set_dependencies d (dependencies d ++ [row]), true).

(** [get_orphaned_packages]: the two SELECTs, the loop that fills the set
    [needed] with one dependency lookup per manually installed package, and
    the final list comprehension. *)
Definition get_orphaned_packages (d : database) : list string :=
  let auto_installed :=
    pkg_name <$> filter (λ p, pkg_auto_installed p = 1) (packages d) in
  let manually_installed :=
    pkg_name <$> filter (λ p, pkg_auto_installed p = 0) (packages d) in
  let needed : gset string :=
    foldl (λ needed pkg,
             needed ∪ list_to_set
               (dep_depends_on <$>
                  filter (λ e, dep_package e = pkg) (dependencies d)))
          ∅ manually_installed in
  filter (λ pkg, pkg ∉ needed) auto_installed.

(** [write_hidden_file]: INSERT OR REPLACE on the key [path].  The tuple of
    parameters calls [time.time()] twice, first for [created_time] and then
    for [modified_time]; [permissions] is not listed and takes its default. *)
Definition write_hidden_file (now1 now2 : Z) (path : string)
    (content : list Byte.byte) (d : database) : database * bool :=
  let row := HiddenFileRow path content (Z.of_nat (length content))
               now1 now2 "rw-r--r--" in
  (set_hidden_files d (filter (λ f, hf_path f ≠ path) (hidden_files d) ++ [row]),
   true).

(** The row stored under [path], as the SELECTs on [hidden_files] find it. *)
Definition get_hidden_file (path : string) (d : database) : option hidden_file_row :=
  head (filter (λ f, hf_path f = path) (hidden_files d)).

(** [read_hidden_file] *)
Definition read_hidden_file (path : string) (d : database) : option (list Byte.byte) :=
  hf_content <$> get_hidden_file path d.

End DatabaseManager.

(** ** ContainerEngine *)

Module ContainerEngine.

(** An entry of [self.network['bridge0']['containers']]. *)
Record net_entry := NetEntry {
  net_name : string;
  net_ip : string;
  net_pid : Z
}.

(** [self.network['bridge0']]: the in-memory bridge, never persisted. *)
Record bridge := Bridge {
  subnet : string;
  gateway : string;
  net_containers : gmap string net_entry
}.

(** The engine: the shared database and the bridge. *)
Record engine := Engine {
  db : database;
  bridge0 : bridge
}.

Definition set_db (e : engine) (d : database) : engine :=
  Engine d (bridge0 e).

Definition set_net_containers (e : engine) (m : gmap string net_entry) : engine :=
  Engine (db e) (Bridge (subnet (bridge0 e)) (gateway (bridge0 e)) m).

(** [__init__]: the tables exist (created if absent) and the bridge starts
    with an empty container map, whatever the database already holds. *)
Definition init (d : database) : engine :=
  Engine d (Bridge "172.17.0.0/16" "172.17.0.1" ∅).

(** [_generate_id(prefix)]: the prefix followed by the twelve characters
    that [random.choice] draws; [suffix] is that draw. *)
Definition _generate_id (prefix suffix : string) : string :=
  prefix +:+ suffix.

(** The [while True] loop after a first [_generate_id]: keep drawing until
    the id is in none of the rows.  [draws] lists the successive draws; the
    result is [None] when every listed draw is taken, the loop then being
    still at work. *)
Fixpoint unique_id (prefix : string) (taken : list string)
    (draws : list string) : option string :=
  match draws with
  | [] => None
  | suffix :: rest =>
      let id := _generate_id prefix suffix in
      if decide (id ∈ taken) then unique_id prefix taken rest else Some id
  end.

(** [str(n)] for a non-negative [int]. *)
Definition str_of_nat (n : nat) : string :=
  NilEmpty.string_of_uint (Nat.to_uint n).

(** [f"172.17.0.{n}"] *)
Definition ip_of_host (n : nat) : string :=
  "172.17.0." +:+ str_of_nat n.

(** SELECT id FROM images WHERE name = ? AND tag = ?, [fetchone()]. *)
Definition find_image_by_tag (name tag : string) (d : database) : option image_row :=
  head (filter (λ i, img_name i = name ∧ img_tag i = tag) (images d)).

(** SELECT id FROM images WHERE name = ? OR id = ?, [fetchone()]. *)
Definition find_image (image : string) (d : database) : option image_row :=
  head (filter (λ i, img_name i = image ∨ img_id i = image) (images d)).

(** SELECT ... FROM containers WHERE name = ? OR id = ?, [fetchone()]. *)
Definition find_container (name_or_id : string) (d : database) : option container_row :=
  head (filter (λ c, ctr_name c = name_or_id ∨ ctr_id c = name_or_id) (containers d)).

(** [create_image]: the id of the row with that name and tag when there is
    one, else a new row with a unique id and the three synthetic layers
    ([None] only when the listed draws run out). *)
Definition create_image (now : Z) (draws : list string) (name tag : string)
    (base_image : option string) (e : engine) : engine * option string :=
  match find_image_by_tag name tag (db e) with
  | Some existing => (e, Some (img_id existing))
  | None =>
      match unique_id "img_" (img_id <$> images (db e)) draws with
      | None => (e, None)
      | Some image_id =>
          let row := ImageRow image_id name tag 100000000 now base_image
                       ["layer_base"; "layer_app"; "layer_config"] in
          let d := db e in
          (set_db e (Database (packages d) (dependencies d) (metadata d)
                       (hidden_files d) (images d ++ [row]) (containers d)
                       (volumes d)),
           Some image_id)
      end
  end.

(** How a call of [create_container] ends.  The two failures print their
    message and return [None]; [DrawsExhausted] is the model's answer when
    the listed draws are all taken. *)
Inductive create_outcome :=
  | Created (container_id : string)
  | ImageNotFound
  | NameExists
  | DrawsExhausted.

(** The value [create_container] returns. *)
Definition returned (o : create_outcome) : option string :=
  match o with
  | Created container_id => Some container_id
  | _ => None
  end.

(** [create_container]: resolve the image, refuse a name in use, pick a
    unique id, take the address from the size of the bridge's container
    map, insert the row with status ['created']. *)
Definition create_container (now : Z) (draws : list string)
    (name image command : string) (ports volumes : option (list string))
    (env : option (list (string * string))) (e : engine)
    : engine * create_outcome :=
  match find_image image (db e) with
  | None => (e, ImageNotFound)
  | Some img =>
      let image_id := img_id img in
      match head (filter (λ c, ctr_name c = name) (containers (db e))) with
      | Some existing => (e, NameExists)
      | None =>
          match unique_id "ctr_" (ctr_id <$> containers (db e)) draws with
          | None => (e, DrawsExhausted)
          | Some container_id =>
              let ip_addr :=
                ip_of_host (size (net_containers (bridge0 e)) + 2) in
              let row := ContainerRow container_id name image_id "created"
                           now None None ip_addr
                           (default [] ports) (default [] volumes)
                           (default [] env) command in
              (set_db e (set_containers (db e) (containers (db e) ++ [row])),
               Created container_id)
          end
      end
  end.

(** UPDATE containers SET status = 'running', started_time = ?, pid = ?
    WHERE id = ? *)
Definition mark_running (now pid : Z) (cid : string)
    (c : container_row) : container_row :=
  if decide (ctr_id c = cid) then
    ContainerRow (ctr_id c) (ctr_name c) (ctr_image_id c) "running"
      (ctr_created_time c) (Some now) (Some pid) (ctr_ip_address c)
      (ctr_ports c) (ctr_volumes c) (ctr_env_vars c) (ctr_command c)
  else c.

(** UPDATE containers SET status = 'stopped', pid = NULL WHERE id = ? *)
Definition mark_stopped (cid : string) (c : container_row) : container_row :=
  if decide (ctr_id c = cid) then
    ContainerRow (ctr_id c) (ctr_name c) (ctr_image_id c) "stopped"
      (ctr_created_time c) (ctr_started_time c) None (ctr_ip_address c)
      (ctr_ports c) (ctr_volumes c) (ctr_env_vars c) (ctr_command c)
  else c.

(** [start_container]; [pid] is the value of [random.randint(1000, 9999)]. *)
Definition start_container (now pid : Z) (name_or_id : string)
    (e : engine) : engine * bool :=
  match find_container name_or_id (db e) with
  | None => (e, false)
  | Some container =>
      let cid := ctr_id container in
      let cname := ctr_name container in
      let ip_addr := ctr_ip_address container in
      let e1 := set_db e (set_containers (db e)
                  (mark_running now pid cid <$> containers (db e))) in
      (set_net_containers e1
         (<[cid := NetEntry cname ip_addr pid]> (net_containers (bridge0 e1))),
       true)
  end.

(** [stop_container] *)
Definition stop_container (name_or_id : string) (e : engine) : engine * bool :=
  match find_container name_or_id (db e) with
  | None => (e, false)
  | Some container =>
      let cid := ctr_id container in
      let e1 := set_db e (set_containers (db e)
                  (mark_stopped cid <$> containers (db e))) in
      (set_net_containers e1 (delete cid (net_containers (bridge0 e1))), true)
  end.

(** [remove_container]: the bridge map is left as it is. *)
Definition remove_container (name_or_id : string) (force : bool)
    (e : engine) : engine * bool :=
  match find_container name_or_id (db e) with
  | None => (e, false)
  | Some container =>
      let cid := ctr_id container in
      if decide (ctr_status container = "running" ∧ force = false) then (e, false)
      else
        (set_db e (set_containers (db e)
           (filter (λ c, ctr_id c ≠ cid) (containers (db e)))),
         true)
  end.

(** ORDER BY created_time DESC *)
Definition newer_first (a b : container_row) : Prop :=
  ctr_created_time b ≤ ctr_created_time a.

#[global] Instance newer_first_dec a b : Decision (newer_first a b).
Proof. unfold newer_first. apply _. Defined.

(** [list_containers] *)
Definition list_containers (all_containers : bool) (e : engine) : list container_row :=
  if all_containers then merge_sort newer_first (containers (db e))
  else merge_sort newer_first
         (filter (λ c, ctr_status c = "running") (containers (db e))).


End ContainerEngine.

(** ** Dotted-quad addresses

    The source builds addresses as text.  To say that one address is below
    another, or inside [172.17.0.0/16], the text is read back as four
    decimal octets. *)

Module Ipv4.

(** [s.split('.')] *)
Fixpoint split_dots (s : string) : list string :=
  match s with
  | EmptyString => [EmptyString]
  | String c rest =>
      if decide (c = "."%char) then EmptyString :: split_dots rest
      else match split_dots rest with
           | field :: fields => String c field :: fields
           | [] => [String c EmptyString]
           end
  end.

(** A non-empty run of decimal digits denoting at most 255. *)
Definition octet (s : string) : option Z :=
  match s with
  | EmptyString => None
  | _ => match NilEmpty.uint_of_string s with
         | Some d => let n := Z.of_nat (Nat.of_uint d) in
                     if decide (n ≤ 255)%Z then Some n else None
         | None => None
         end
  end.

(** The 32-bit value of a dotted quad, [None] when the text is not one. *)
Definition value (ip : string) : option Z :=
  match split_dots ip with
  | [a; b; c; d] =>
      match octet a, octet b, octet c, octet d with
      | Some a, Some b, Some c, Some d =>
          Some (((a * 256 + b) * 256 + c) * 256 + d)%Z
      | _, _, _, _ => None
      end
  | _ => None
  end.

(** 172.17.0.0, the base of the bridge subnet ['172.17.0.0/16']. *)
Definition bridge_base : Z := ((172 * 256 + 17) * 256 + 0) * 256 + 0.

(** Membership in ['172.17.0.0/16']: a well-formed address whose upper
    sixteen bits are those of the base. *)
Definition in_bridge_subnet (ip : string) : Prop :=
  match value ip with
  | Some v => (bridge_base ≤ v < bridge_base + 65536)%Z
  | None => False
  end.

(** Addresses that read as strictly increasing 32-bit values. *)
Definition increasing (ips : list string) : Prop :=
  ∃ values, value <$> ips = Some <$> values ∧ StronglySorted Z.lt values.

End Ipv4.

(** ** KernelAddCLI: the commands that reach the store *)

Module KernelAddCLI.

Import ContainerEngine.

(** [' '.join(words)] *)
Fixpoint join_spaces (words : list string) : string :=
  match words with
  | [] => ""
  | [w] => w
  | w :: rest => w +:+ " " +:+ join_spaces rest
  end.

(** [_cmd_crun]: create the container and, when an id came back, start it
    at once under that id.  [now1] and [draws] feed [create_container],
    [now2] and [pid] feed [start_container]. *)
Definition _cmd_crun (now1 : Z) (draws : list string) (now2 pid : Z)
    (args : list string) (e : engine) : engine :=
  match args with
  | name :: image :: rest =>
      let command :=
        match rest with [] => "/bin/sh" | _ => join_spaces rest end in
      let '(e1, outcome) :=
        create_container now1 draws name image command None None None e in
      match returned outcome with
      | Some container_id =>
          if decide (container_id = "") then e1
          else (start_container now2 pid container_id e1).1
      | None => e1
      end
  | _ => e
  end.

(** One invocation of [crun] with what it draws from the clock and the
    random generator. *)
Record crun_call := CrunCall {
  call_now1 : Z;
  call_draws : list string;
  call_now2 : Z;
  call_pid : Z;
  call_args : list string
}.

(** A session of [crun] commands, one after the other. *)
Definition crun_all (calls : list crun_call) (e : engine) : engine :=
  foldl (λ e c, _cmd_crun (call_now1 c) (call_draws c) (call_now2 c)
                  (call_pid c) (call_args c) e) e calls.

(** The rows a session appended to [containers], oldest first. *)
Definition rows_added (e e' : engine) : list container_row :=
  drop (length (containers (db e))) (containers (db e')).

(** [args[0]], [args[1]] and the id that the first draw of a call makes. *)
Definition call_name (c : crun_call) : string :=
  default "" (call_args c !! 0%nat).

Definition call_image (c : crun_call) : string :=
  default "" (call_args c !! 1%nat).

Definition call_id (c : crun_call) : string :=
  _generate_id "ctr_" (default "" (head (call_draws c))).

(** A session in which every [crun] goes through and nothing collides:
    each call names an image that exists and a container name not in use,
    and the id its first draw makes is new, is nobody's name and is not a
    key left in the bridge map. *)
Definition clean_session (e : engine) (calls : list crun_call) : Prop :=
  Forall (λ c, (2 ≤ length (call_args c))%nat ∧ call_draws c ≠ []
               ∧ is_Some (find_image (call_image c) (db e))
               ∧ (call_name c ∉ ctr_name <$> containers (db e))
               ∧ (call_id c ∉ ctr_id <$> containers (db e))
               ∧ (call_id c ∉ ctr_name <$> containers (db e))
               ∧ (call_id c ∉ call_name <$> calls)
               ∧ net_containers (bridge0 e) !! call_id c = None) calls
  ∧ NoDup (call_name <$> calls)
  ∧ NoDup (call_id <$> calls).

(** The host numbers [k+2], [k+3], ... of [n] addresses handed out one
    after the other when the bridge map holds [k] entries at first. *)
Definition hosts_from (k n : nat) : list nat :=
  (λ i, k + i + 2)%nat <$> seq 0 n.

(** Characters that [str.strip()] removes, among the code points below
    256: TAB to CR, FS to US, SPACE, NEL and NBSP. *)
Definition is_space (c : ascii) : bool :=
  let n := nat_of_ascii c in
  ((9 <=? n)%nat && (n <=? 13)%nat) || ((28 <=? n)%nat && (n <=? 32)%nat)
  || (n =? 133)%nat || (n =? 160)%nat.

(** [str.lstrip()] *)
Fixpoint lstrip (s : string) : string :=
  match s with
  | EmptyString => EmptyString
  | String c rest => if is_space c then lstrip rest else s
  end.

(** [str.strip()] *)
Definition strip (s : string) : string :=
  String.rev (lstrip (String.rev (lstrip s))).

(** The phrase [_cmd_dbclean] asks for. *)
Definition confirmation_phrase : string := "DELETE EVERYTHING".

(** [tables] of [_cmd_dbclean], in its order. *)
Definition all_tables : list string :=
  ["packages"; "dependencies"; "hidden_files"; "containers"; "images";
   "volumes"; "metadata"].

(** [cursor.execute(f'DELETE FROM {table}')] and [cursor.rowcount]; [None]
    stands for the [sqlite3.Error] of a table that does not exist. *)
Definition delete_from (table : string) (d : database) : option (database * nat) :=
  if decide (table = "packages") then
    Some (Database [] (dependencies d) (metadata d) (hidden_files d)
            (images d) (containers d) (volumes d), length (packages d))
  else if decide (table = "dependencies") then
    Some (Database (packages d) [] (metadata d) (hidden_files d)
            (images d) (containers d) (volumes d), length (dependencies d))
  else if decide (table = "hidden_files") then
    Some (Database (packages d) (dependencies d) (metadata d) []
            (images d) (containers d) (volumes d), length (hidden_files d))
  else if decide (table = "containers") then
    Some (Database (packages d) (dependencies d) (metadata d) (hidden_files d)
            (images d) [] (volumes d), length (containers d))
  else if decide (table = "images") then
    Some (Database (packages d) (dependencies d) (metadata d) (hidden_files d)
            [] (containers d) (volumes d), length (images d))
  else if decide (table = "volumes") then
    Some (Database (packages d) (dependencies d) (metadata d) (hidden_files d)
            (images d) (containers d) [], length (volumes d))
  else if decide (table = "metadata") then
    Some (Database (packages d) (dependencies d) [] (hidden_files d)
            (images d) (containers d) (volumes d), length (metadata d))
  else None.

(** [_cmd_dbclean]: [line] is what [input()] returns.  The result is the
    database and, per table, the row count printed ([None] for the warning
    printed when the DELETE raised). *)
Definition _cmd_dbclean (line : string) (d : database)
    : database * list (string * option nat) :=
  let confirm := strip line in
  if decide (confirm ≠ confirmation_phrase) then (d, [])
  else
    foldl (λ acc table,
             match delete_from table acc.1 with
             | Some (d', deleted) => (d', acc.2 ++ [(table, Some deleted)])
             | None => (acc.1, acc.2 ++ [(table, None)])
             end)
          (d, []) all_tables.

End KernelAddCLI.

(** ** The container life cycle as a transition system *)

Module Lifecycle.

Import ContainerEngine.

(** One operation of the engine; [restart] is a new process building its
    engine on the database the previous one left. *)
Inductive step : engine → engine → Prop :=
  | step_create now draws name image command ports volumes env e :
      step e (create_container now draws name image command ports volumes env e).1
  | step_start now pid name_or_id e :
      (1000 ≤ pid ≤ 9999)%Z →
      step e (start_container now pid name_or_id e).1
  | step_stop name_or_id e :
      step e (stop_container name_or_id e).1
  | step_remove name_or_id force e :
      step e (remove_container name_or_id force e).1
  | step_restart e :
      step e (init (db e)).

(** States reached from an engine whose [containers] table is empty. *)
Inductive reachable : engine → Prop :=
  | reachable_init d : containers d = [] → reachable (init d)
  | reachable_step e e' : reachable e → step e e' → reachable e'.

(** What the data model asks of a row: a status among the three, and a pid
    exactly while running. *)
Definition row_ok (c : container_row) : Prop :=
  (ctr_status c = "created" ∨ ctr_status c = "running" ∨ ctr_status c = "stopped")
  ∧ (is_Some (ctr_pid c) ↔ ctr_status c = "running").

End Lifecycle.

(** ** The database file and [repair]

    [repair] works on files, so the store is seen here as SQLite keeps it:
    named tables of rows.  A file is either sound, and then holds such
    tables, or damaged, and then every statement run against it raises
    [sqlite3.DatabaseError]; its dump yields some statements and raises.
    The disk maps paths to files.  The calls of [os] and [shutil] succeed;
    what [sqlite3] raises is modelled, since [repair] branches on it. *)

Module DatabaseFile.

(** A row of any of the seven tables. *)
Inductive any_row :=
  | OfPackage (r : package_row)
  | OfDependency (r : dependency_row)
  | OfMetadata (r : metadata_row)
  | OfHiddenFile (r : hidden_file_row)
  | OfImage (r : image_row)
  | OfContainer (r : container_row)
  | OfVolume (r : volume_row).

(** Two rows that one table refuses to hold together: they agree on the
    PRIMARY KEY, or for containers on the UNIQUE name. *)
Definition conflicts (a b : any_row) : Prop :=
  match a, b with
  | OfPackage a, OfPackage b => pkg_name a = pkg_name b
  | OfDependency a, OfDependency b =>
      dep_package a = dep_package b ∧ dep_depends_on a = dep_depends_on b
  | OfMetadata a, OfMetadata b => meta_key a = meta_key b
  | OfHiddenFile a, OfHiddenFile b => hf_path a = hf_path b
  | OfImage a, OfImage b => img_id a = img_id b
  | OfContainer a, OfContainer b =>
      ctr_id a = ctr_id b ∨ ctr_name a = ctr_name b
  | OfVolume a, OfVolume b => vol_name a = vol_name b
  | _, _ => False
  end.

#[global] Instance conflicts_dec a b : Decision (conflicts a b).
Proof. destruct a, b; simpl; apply _. Defined.

(** The statements a dump is made of, [BEGIN] and [COMMIT] left out. *)
Inductive statement :=
  | CreateTable (table : string)
  | InsertInto (table : string) (row : any_row).

(** A file on disk. *)
Inductive file :=
  | Sound (tables : gmap string (list any_row))
  | Damaged (salvage : list statement).

(** [conn.execute(line)] on sound content; [None] is [sqlite3.Error]:
    the table is already there, or is missing, or a key is taken. *)
Definition execute (line : statement) (c : gmap string (list any_row))
    : option (gmap string (list any_row)) :=
  match line with
  | CreateTable t =>
      match c !! t with
      | Some _ => None
      | None => Some (<[t := []]> c)
      end
  | InsertInto t row =>
      match c !! t with
      | None => None
      | Some rows =>
          if decide (Exists (conflicts row) rows) then None
          else Some (<[t := rows ++ [row]]> c)
      end
  end.

(** [conn.execute(line)] on a file. *)
Definition execute_file (line : statement) (f : file) : option file :=
  match f with
  | Sound c => Sound <$> execute line c
  | Damaged _ => None
  end.

(** ORDER BY "name" of the dump's query on [sqlite_master]. *)
Definition by_name (a b : string * list any_row) : Prop := String.le a.1 b.1.

#[global] Instance by_name_dec a b : Decision (by_name a b).
Proof. unfold by_name. apply _. Defined.

(** What one table contributes to a dump. *)
Definition dump_table (p : string * list any_row) : list statement :=
  CreateTable p.1 :: (InsertInto p.1 <$> p.2).

(** [conn.iterdump()]: the statements it yields, and whether it then
    raises [sqlite3.Error]. *)
Definition iterdump (f : file) : list statement * bool :=
  match f with
  | Sound c => (mbind dump_table (merge_sort by_name (map_to_list c)), false)
  | Damaged salvage => (salvage, true)
  end.

(** The loop of [repair]: run every line, pass over those that raise. *)
Definition replay (lines : list statement) (f : file) : file :=
  foldl (λ f line, default f (execute_file line f)) f lines.

(** [sqlite3.connect(path)] makes an empty database when no file is there. *)
Definition connect (path : string) (disk : gmap string file) : gmap string file :=
  match disk !! path with
  | Some _ => disk
  | None => <[path := Sound ∅]> disk
  end.

(** The tables of [_init_database]. *)
Definition core_tables : list string :=
  ["packages"; "dependencies"; "metadata"; "hidden_files"].

(** CREATE TABLE IF NOT EXISTS *)
Definition create_if_absent (c : gmap string (list any_row)) (t : string)
    : gmap string (list any_row) :=
  match c !! t with
  | Some _ => c
  | None => <[t := []]> c
  end.

(** [_init_database]: connect and create the four tables that are absent;
    on a damaged file the first statement raises and the handler only
    prints. *)
Definition _init_database (db_path : string) (disk : gmap string file)
    : gmap string file :=
  let disk := connect db_path disk in
  match disk !! db_path with
  | Some (Sound c) => <[db_path := Sound (foldl create_if_absent c core_tables)]> disk
  | _ => disk
  end.

(** [str(n)] for the non-negative [int] of a clock reading. *)
Definition str_of_int (n : N) : string :=
  NilEmpty.string_of_uint (N.to_uint n).

(** [repair]: [now] is [int(time.time())].  File operations succeed, so the
    outer [except Exception] is not entered and the result is [True]; the
    last branch is never taken, both files being there after [connect]. *)
Definition repair (now : N) (db_path : string) (disk : gmap string file)
    : gmap string file * bool :=
  let backup_path := db_path +:+ ".backup." +:+ str_of_int now in
  let disk :=
    match disk !! db_path with
    | Some f => <[backup_path := f]> disk
    | None => disk
    end in
  let temp_db := db_path +:+ ".temp" in
  let disk := connect temp_db (connect db_path disk) in
  match disk !! db_path, disk !! temp_db with
  | Some old, Some new =>
      let '(lines, raises) := iterdump old in
      let disk := <[temp_db := replay lines new]> disk in
      let disk :=
        if raises then delete db_path (delete temp_db disk)
        else match disk !! temp_db with
             | Some f => <[db_path := f]> (delete temp_db disk)
             | None => disk
             end in
      (_init_database db_path disk, true)
  | _, _ => (disk, false)
  end.

(** The replay loop on the tables of a sound file. *)
Definition replay_tables (lines : list statement)
    (c : gmap string (list any_row)) : gmap string (list any_row) :=
  foldl (λ c line, default c (execute line c)) c lines.

(** The rows a file shows for a table; none when the table or the file
    cannot be read. *)
Definition table_rows (t : string) (f : option file) : list any_row :=
  match f with
  | Some (Sound c) => default [] (c !! t)
  | _ => []
  end.

(** The file that holds a store of the seven tables. *)
Definition file_of (d : database) : file :=
  Sound (list_to_map
    [("packages", OfPackage <$> packages d);
     ("dependencies", OfDependency <$> dependencies d);
     ("metadata", OfMetadata <$> metadata d);
     ("hidden_files", OfHiddenFile <$> hidden_files d);
     ("images", OfImage <$> images d);
     ("containers", OfContainer <$> containers d);
     ("volumes", OfVolume <$> volumes d)]).

(** No row of the list conflicts with one before it, as in every table of
    a sound file. *)
Fixpoint no_conflicts (rows : list any_row) : Prop :=
  match rows with
  | [] => True
  | r :: rest => Forall (λ r', ¬ conflicts r' r) rest ∧ no_conflicts rest
  end.

#[global] Instance no_conflicts_dec rows : Decision (no_conflicts rows).
Proof. induction rows as [|r rest IH]; simpl; apply _. Defined.

End DatabaseFile.


(** ** Sample states

    Concrete stores on which the theorems below are instantiated. *)

Module Samples.

Import ContainerEngine KernelAddCLI DatabaseFile.

Definition empty_db : database := Database [] [] [] [] [] [] [].

(** [vim] was asked for and needs [libc]; [libfoo] and [libbar] came in
    as dependencies, [libfoo] needing [libbar], and nothing asked for now
    needs either. *)
Definition package_db : database :=
  Database
    [PackageRow "vim" "9.0" 3500000 "vim.deb" 10 0 0;
     PackageRow "libc" "2.38" 9000000 "libc.deb" 11 1 0;
     PackageRow "libfoo" "1.2" 40000 "libfoo.deb" 12 1 0;
     PackageRow "libbar" "0.9" 20000 "libbar.deb" 13 1 0]
    [DependencyRow "vim" "libc"; DependencyRow "libfoo" "libbar"]
    [] [] [] [] [].

(** One hidden file written at time 100. *)
Definition one_file : database :=
  Database [] [] []
    [HiddenFileRow "/etc/motd" [Byte.x68; Byte.x69] 2 100 100 "rw-r--r--"]
    [] [] [].

(** A new engine with the image [alpine:latest]. *)
Definition with_image : engine :=
  (create_image 1 ["q7c2m9x4k1zd"] "alpine" "latest" None (init empty_db)).1.

(** ... and a container [web] created on it. *)
Definition with_web : engine :=
  (create_container 2 ["k3x9q2m7w1zp"] "web" "alpine" "/bin/sh"
     None None None with_image).1.

Definition web_row : container_row :=
  ContainerRow "ctr_k3x9q2m7w1zp" "web" "img_q7c2m9x4k1zd" "created" 2
    None None "172.17.0.2" [] [] [] "/bin/sh".

(** ... then started. *)
Definition web_running : engine :=
  (start_container 3 4242 "web" with_web).1.

(** Three [crun] commands. *)
Definition three_calls : list crun_call :=
  [CrunCall 10 ["a1b2c3d4e5f6"] 11 1001 ["web"; "alpine"];
   CrunCall 20 ["g7h8i9j0k1l2"] 21 1002 ["db"; "alpine"; "sleep"; "60"];
   CrunCall 30 ["m3n4o5p6q7r8"] 31 1003 ["cache"; "alpine"]].





End Samples.

(** * More of the code

    The rest of [DatabaseManager], the package manager built on it, the
    remaining methods of [ContainerEngine], two more commands and the
    mini kernel. *)

(** ** Text functions of Python used by the code *)

Module Text.

(** [str.lower()] on the code points below 256: A to Z, and the capital
    letters of Latin-1 (À to Þ without the multiplication sign). *)
Definition lower_char (c : ascii) : ascii :=
  let n := nat_of_ascii c in
  if ((65 <=? n)%nat && (n <=? 90)%nat)
     || ((192 <=? n)%nat && (n <=? 222)%nat && negb (n =? 215)%nat)
  then ascii_of_nat (n + 32) else c.

Fixpoint lower (s : string) : string :=
  match s with
  | EmptyString => EmptyString
  | String c rest => String (lower_char c) (lower rest)
  end.

(** [s.split(', ')] *)
Fixpoint split_comma_space (s : string) : list string :=
  match s with
  | EmptyString => [EmptyString]
  | String c rest =>
      match c, rest with
      | ","%char, String " "%char rest' => EmptyString :: split_comma_space rest'
      | _, _ =>
          match split_comma_space rest with
          | field :: fields => String c field :: fields
          | [] => [String c EmptyString]
          end
      end
  end.

(** [s.split('(')[0]]: what stands before the first parenthesis. *)
Fixpoint before_paren (s : string) : string :=
  match s with
  | EmptyString => EmptyString
  | String c rest =>
      if decide (c = "("%char) then EmptyString else String c (before_paren rest)
  end.

(** [str(z)] for an [int]. *)
Definition str_of_Z (z : Z) : string :=
  NilEmpty.string_of_int (Z.to_int z).

End Text.

(** ** DatabaseManager, the other methods *)

Module DatabaseManagerRest.

Definition set_metadata_table (d : database) (v : list metadata_row) : database :=
  Database (packages d) (dependencies d) v (hidden_files d)
           (images d) (containers d) (volumes d).

(** [check_package_exists] *)
Definition check_package_exists (name : string) (d : database) : bool :=
  match head (filter (λ p, pkg_name p = name) (packages d)) with
  | Some _ => true
  | None => false
  end.

(** ORDER BY name, in the byte order of SQLite's default collation. *)
Definition by_pkg_name (a b : package_row) : Prop :=
  String.le (pkg_name a) (pkg_name b).

#[global] Instance by_pkg_name_dec a b : Decision (by_pkg_name a b).
Proof. unfold by_pkg_name. apply _. Defined.

(** [get_all_packages] *)
Definition get_all_packages (d : database) : list package_row :=
  merge_sort by_pkg_name (packages d).

(** [remove_package_safe]: the same two DELETE statements as
    [remove_package]. *)
Definition remove_package_safe (name : string) (d : database) : database * bool :=
  let d1 := set_packages d (filter (λ p, pkg_name p ≠ name) (packages d)) in
  let d2 := set_dependencies d1
              (filter (λ e, ¬ (dep_package e = name ∨ dep_depends_on e = name))
                      (dependencies d1)) in
  (d2, true).

(** ORDER BY path *)
Definition by_path (a b : hidden_file_row) : Prop :=
  String.le (hf_path a) (hf_path b).

#[global] Instance by_path_dec a b : Decision (by_path a b).
Proof. unfold by_path. apply _. Defined.

(** [list_hidden_files]: path, size and modified time of every file. *)
Definition list_hidden_files (d : database) : list (string * Z * Z) :=
  (λ f, (hf_path f, hf_size f, hf_modified_time f))
    <$> merge_sort by_path (hidden_files d).

(** [delete_hidden_file] *)
Definition delete_hidden_file (path : string) (d : database) : database * bool :=
  (set_hidden_files d (filter (λ f, hf_path f ≠ path) (hidden_files d)), true).

(** [set_metadata]: INSERT OR REPLACE on the key. *)
Definition set_metadata (key value : string) (d : database) : database * bool :=
  (set_metadata_table d
     (filter (λ m, meta_key m ≠ key) (metadata d) ++ [MetadataRow key value]),
   true).

(** [get_metadata] *)
Definition get_metadata (key : string) (d : database) : option string :=
  meta_value <$> head (filter (λ m, meta_key m = key) (metadata d)).

(** Every edge joins two packages of the table: the referential integrity
    that the schema declares and SQLite does not enforce. *)
Definition edges_resolve (d : database) : Prop :=
  Forall (λ e, dep_package e ∈ pkg_name <$> packages d
               ∧ dep_depends_on e ∈ pkg_name <$> packages d)
         (dependencies d).

(** The keys that the schema declares: one row per package name, per
    dependency pair, per metadata key and per hidden path. *)
Definition keys_unique (d : database) : Prop :=
  NoDup (pkg_name <$> packages d)
  ∧ NoDup (dependencies d)
  ∧ NoDup (meta_key <$> metadata d)
  ∧ NoDup (hf_path <$> hidden_files d).

End DatabaseManagerRest.

(** ** AddPackageManager *)

Module AddPackageManager.

Import DatabaseManager DatabaseManagerRest.

(** A decimal digit. *)
Definition is_digit (c : ascii) : bool :=
  let n := nat_of_ascii c in (48 <=? n)%nat && (n <=? 57)%nat.

(** The digits of a numeral in which single underscores may stand between
    digits; [None] when the text is not such a numeral.  [after_digit]
    tells whether the character before was a digit. *)
Fixpoint numeral_digits (s : string) (after_digit : bool) : option string :=
  match s with
  | EmptyString => if after_digit then Some EmptyString else None
  | String c rest =>
      if is_digit c then String c <$> numeral_digits rest true
      else if decide (c = "_"%char) then
        (if after_digit then numeral_digits rest false else None)
      else None
  end.

Definition unsigned_of_text (s : string) : option Z :=
  digits ← numeral_digits s false;
  Z.of_uint <$> NilEmpty.uint_of_string digits.

(** [int(text)]: white space around, an optional sign, then the numeral;
    [None] is [ValueError]. *)
Definition int_of_text (s : string) : option Z :=
  match KernelAddCLI.strip s with
  | String "+"%char rest => unsigned_of_text rest
  | String "-"%char rest => Z.opp <$> unsigned_of_text rest
  | t => unsigned_of_text t
  end.

(** What [json.load] finds at [index_file]. *)
Inductive index_file_state :=
  | NoIndexFile
  | UnreadableIndex
  | IndexOf (entries : gmap string (gmap string string)).

(** The package manager: its database, the index in memory and the index
    file.  An entry of the index maps field names to values, a JSON number
    being kept as its decimal text. *)
Record manager := Manager {
  pm_db : database;
  packages_index : gmap string (gmap string string);
  index_file : index_file_state
}.

Definition set_pm_db (m : manager) (d : database) : manager :=
  Manager d (packages_index m) (index_file m).

(** [_get_package_info]: load the index file when the index in memory is
    empty, then look the name up. *)
Definition _get_package_info (package_name : string) (m : manager)
    : manager * option (gmap string string) :=
  if decide (packages_index m = ∅) then
    match index_file m with
    | NoIndexFile => (m, packages_index m !! package_name)
    | UnreadableIndex => (m, None)
    | IndexOf entries =>
        (Manager (pm_db m) entries (index_file m), entries !! package_name)
    end
  else (m, packages_index m !! package_name).

(** The names in a [Depends] field: split at [', '], cut each part at its
    first parenthesis, strip it, drop the empty ones. *)
Definition depends_names (depends : string) : list string :=
  filter (λ dep_clean, dep_clean ≠ "")
    ((λ dep, KernelAddCLI.strip (Text.before_paren dep))
       <$> Text.split_comma_space depends).

(** How [install] ends; [InstallRaised] is the [ValueError] of a size that
    is no number, which [install] lets through. *)
Inductive install_outcome :=
  | Installed
  | AlreadyInstalled
  | NotInIndex
  | InstallRaised.

(** The value [install] returns, when it returns. *)
Definition install_result (o : install_outcome) : option bool :=
  match o with
  | Installed | AlreadyInstalled => Some true
  | NotInIndex => Some false
  | InstallRaised => None
  end.

(** [install]: [now] is the clock reading of [add_package] and [stamp] the
    text [str(time.time())] written under [last_update].  The suggestions
    printed for an unknown package come from [search], which changes
    nothing that [_get_package_info] has not already changed. *)
Definition install (now : Z) (stamp : string) (package_name : string)
    (simulate : bool) (m : manager) : manager * install_outcome :=
  match get_package package_name (pm_db m) with
  | Some _ => (m, AlreadyInstalled)
  | None =>
      let '(m1, found) := _get_package_info package_name m in
      match found with
      | None => (m1, NotInIndex)
      | Some pkg_info =>
          if decide (pkg_info = ∅) then (m1, NotInIndex)
          else
            match int_of_text (default "0" (pkg_info !! "Size")) with
            | None => (m1, InstallRaised)
            | Some size =>
                let d1 := (add_package now package_name
                             (default "unknown" (pkg_info !! "Version")) size
                             (default "" (pkg_info !! "Filename"))
                             false simulate (pm_db m1)).1 in
                let depends := default "" (pkg_info !! "Depends") in
                let d2 := foldl (λ d dep_clean,
                                   (add_dependency package_name dep_clean d).1)
                                d1 (depends_names depends) in
                let d3 := (set_metadata "last_update" stamp d2).1 in
                (set_pm_db m1 d3, Installed)
            end
      end
  end.

(** [remove] *)
Definition remove (package_name : string) (m : manager) : manager * bool :=
  match get_package package_name (pm_db m) with
  | None => (m, false)
  | Some _ => (set_pm_db m (remove_package package_name (pm_db m)).1, true)
  end.

(** [autoremove]: [line] is what [input()] returns, read only when there
    is something to remove. *)
Definition autoremove (line : string) (m : manager) : manager * bool :=
  let orphaned := get_orphaned_packages (pm_db m) in
  match orphaned with
  | [] => (m, true)
  | _ =>
      let confirm := Text.lower (KernelAddCLI.strip line) in
      if decide (confirm ≠ "" ∧ confirm ≠ "y") then (m, false)
      else
        (set_pm_db m (foldl (λ d pkg, (remove_package pkg d).1)
                        (pm_db m) orphaned),
         true)
  end.

(** What a session at the package manager can do: install, remove,
    autoremove, and refresh the index by [update]. *)
Inductive session_step : manager → manager → Prop :=
  | session_install now stamp package_name simulate m :
      session_step m (install now stamp package_name simulate m).1
  | session_remove package_name m :
      session_step m (remove package_name m).1
  | session_autoremove line m :
      session_step m (autoremove line m).1
  | session_update index file m :
      session_step m (Manager (pm_db m) index file).

(** States reached from a database with no package. *)
Inductive session_reachable : manager → Prop :=
  | session_init m : packages (pm_db m) = [] → session_reachable m
  | session_more m m' :
      session_reachable m → session_step m m' → session_reachable m'.

End AddPackageManager.

(** ** The commands [dbfix] and [cclean] *)

Module Maintenance.

Import ContainerEngine.

(** What [_cmd_dbfix] prints: the names held by more than one package row
    with their counts, the numbers of containers and images, and the
    number of dependency edges with an end that is no package.  The answer
    of [PRAGMA integrity_check] is the engine's own and is left out. *)
Record dbfix_report := DbfixReport {
  duplicates : list (string * nat);
  container_count : nat;
  image_count : nat;
  orphaned_deps : nat
}.

(** package NOT IN (SELECT name FROM packages)
    OR depends_on NOT IN (SELECT name FROM packages) *)
Definition dangling (d : database) (e : dependency_row) : Prop :=
  (dep_package e ∉ pkg_name <$> packages d)
  ∨ (dep_depends_on e ∉ pkg_name <$> packages d).

#[global] Instance dangling_dec d e : Decision (dangling d e).
Proof. unfold dangling. apply _. Defined.

(** [_cmd_dbfix] *)
Definition _cmd_dbfix (d : database) : database * dbfix_report :=
  let names := pkg_name <$> packages d in
  let counted :=
    (λ n, (n, length (filter (λ n', n' = n) names)))
      <$> remove_dups (merge_sort String.le names) in
  let duplicates := filter (λ p, (1 < p.2)%nat) counted in
  let orphaned_deps := length (filter (dangling d) (dependencies d)) in
  let d' :=
    if decide (0 < orphaned_deps)%nat then
      set_dependencies d (filter (λ e, ¬ dangling d e) (dependencies d))
    else d in
  (d', DbfixReport duplicates (length (containers d)) (length (images d))
         orphaned_deps).

(** [_cmd_cclean]: [line] is what [input()] returns; with the engine come
    the numbers of containers and images deleted, [None] when cancelled. *)
Definition _cmd_cclean (line : string) (e : engine)
    : engine * option (nat * nat) :=
  let confirm := Text.lower (KernelAddCLI.strip line) in
  if decide (confirm ≠ "yes") then (e, None)
  else
    let d := db e in
    (Engine (Database (packages d) (dependencies d) (metadata d)
               (hidden_files d) [] [] [])
            (Bridge (subnet (bridge0 e)) (gateway (bridge0 e)) ∅),
     Some (length (containers d), length (images d))).

End Maintenance.

(** ** ContainerEngine, the other methods *)

Module ContainerEngineRest.

Import ContainerEngine.

(** ORDER BY created_time DESC on images. *)
Definition newer_image_first (a b : image_row) : Prop :=
  img_created_time b ≤ img_created_time a.

#[global] Instance newer_image_first_dec a b : Decision (newer_image_first a b).
Proof. unfold newer_image_first. apply _. Defined.

(** [list_images] *)
Definition list_images (e : engine) : list image_row :=
  merge_sort newer_image_first (images (db e)).




(** [network_inspect]: the bridge under its name, [None] for the empty
    dict any other name gets. *)
Definition network_inspect (network_name : string) (e : engine) : option bridge :=
  if decide (network_name = "bridge0") then Some (bridge0 e) else None.

(** The engine at work in one process with nothing removed: containers
    are created, started and stopped. *)
Inductive run_step : engine → engine → Prop :=
  | run_create now draws name image command ports vols env e :
      run_step e (create_container now draws name image command ports vols env e).1
  | run_start now pid name_or_id e :
      run_step e (start_container now pid name_or_id e).1
  | run_stop name_or_id e :
      run_step e (stop_container name_or_id e).1.

Inductive run_reachable : engine → Prop :=
  | run_init d : containers d = [] → run_reachable (init d)
  | run_more e e' : run_reachable e → run_step e e' → run_reachable e'.

(** The bridge map and the table agree: the keys of the map are the ids of
    the running rows, and an entry repeats the name, address and pid of
    such a row. *)
Definition bridge_agrees (e : engine) : Prop :=
  (∀ k entry, net_containers (bridge0 e) !! k = Some entry →
     ∃ c, c ∈ containers (db e) ∧ ctr_id c = k ∧ ctr_status c = "running"
          ∧ ctr_name c = net_name entry ∧ ctr_ip_address c = net_ip entry
          ∧ ctr_pid c = Some (net_pid entry))
  ∧ (∀ c, c ∈ containers (db e) → ctr_status c = "running" →
       is_Some (net_containers (bridge0 e) !! ctr_id c)).

End ContainerEngineRest.

(** ** MiniKernel *)

Module MiniKernel.

Import ContainerEngine.

(** A value of [state['processes']]; [ended] is set by [sys_kill]. *)
Record process := Process {
  proc_pid : Z;
  proc_name : string;
  proc_command : string;
  proc_state : string;
  proc_started : Z;
  proc_cpu_time : Z;
  proc_ended : option Z
}.

(** A value of [state['memory']]; [data] is [bytearray(size)]. *)
Record mem_block := MemBlock {
  mem_size : Z;
  mem_label : string;
  mem_allocated : Z;
  mem_data : list Byte.byte
}.

(** A value of [state['devices']]; [unmounted] is set by [sys_unmount]. *)
Record device := Device {
  dev_device : string;
  dev_mountpoint : string;
  dev_mounted : Z;
  dev_status : string;
  dev_unmounted : option Z
}.

(** A value of [state['files']]. *)
Record kfile := KFile {
  file_created : Z;
  file_modified : Z;
  file_data : string;
  file_size : nat
}.

(** [self.state].  The devices are kept in insertion order with their
    keys, which is the order [sys_unmount] walks them in. *)
Record kstate := KState {
  boot_time : Z;
  processes : gmap Z process;
  memory : gmap string mem_block;
  devices : list (string * device);
  files : gmap string kfile;
  logs : list string
}.

(** [_log]: [stamp] is the formatted clock reading. *)
Definition _log (stamp message : string) (s : kstate) : kstate :=
  KState (boot_time s) (processes s) (memory s) (devices s) (files s)
         (logs s ++ ["[" +:+ stamp +:+ "] " +:+ message]).

(** [d[key] = value] on a dict kept in insertion order: a key already
    there keeps its place. *)
Fixpoint dict_set {V} (key : string) (value : V) (d : list (string * V))
    : list (string * V) :=
  match d with
  | [] => [(key, value)]
  | (k, v) :: rest =>
      if decide (k = key) then (k, value) :: rest
      else (k, v) :: dict_set key value rest
  end.

(** [sys_read] *)
Definition sys_read (stamp : string) (filepath : string) (s : kstate)
    : kstate * string :=
  match files s !! filepath with
  | None => (s, "ERROR: File " +:+ filepath +:+ " not found")
  | Some f => (_log stamp ("READ: " +:+ filepath) s, file_data f)
  end.

(** [sys_write]: a new file takes both clock readings, an old one keeps
    its [created] and takes the first reading as [modified]. *)
Definition sys_write (stamp : string) (now1 now2 : Z) (filepath data : string)
    (s : kstate) : kstate * string :=
  let size := String.length data in
  let answer :=
    "Written " +:+ str_of_nat size +:+ " bytes to " +:+ filepath in
  match files s !! filepath with
  | None =>
      let s1 := KState (boot_time s) (processes s) (memory s) (devices s)
                  (<[filepath := KFile now1 now2 data size]> (files s))
                  (logs s) in
      (_log stamp ("CREATE: " +:+ filepath) s1, answer)
  | Some f =>
      let s1 := KState (boot_time s) (processes s) (memory s) (devices s)
                  (<[filepath := KFile (file_created f) now1 data size]>
                     (files s))
                  (logs s) in
      (_log stamp ("WRITE: " +:+ filepath) s1, answer)
  end.

(** [sys_exec] *)
Definition sys_exec (stamp : string) (now : Z) (pid : Z) (name command : string)
    (s : kstate) : kstate * string :=
  match processes s !! pid with
  | Some _ => (s, "ERROR: PID " +:+ Text.str_of_Z pid +:+ " already exists")
  | None =>
      let s1 := KState (boot_time s)
                  (<[pid := Process pid name command "running" now 0 None]>
                     (processes s))
                  (memory s) (devices s) (files s) (logs s) in
      (_log stamp ("EXEC: Process " +:+ name +:+ " (PID "
                   +:+ Text.str_of_Z pid +:+ ")") s1,
       "Process " +:+ name +:+ " started with PID " +:+ Text.str_of_Z pid)
  end.

(** [sys_kill] *)
Definition sys_kill (stamp : string) (now : Z) (pid : Z) (s : kstate)
    : kstate * string :=
  match processes s !! pid with
  | None => (s, "ERROR: PID " +:+ Text.str_of_Z pid +:+ " not found")
  | Some proc =>
      let proc' := Process (proc_pid proc) (proc_name proc)
                     (proc_command proc) "terminated" (proc_started proc)
                     (proc_cpu_time proc) (Some now) in
      let s1 := KState (boot_time s) (<[pid := proc']> (processes s))
                  (memory s) (devices s) (files s) (logs s) in
      (_log stamp ("KILL: Process " +:+ proc_name proc +:+ " (PID "
                   +:+ Text.str_of_Z pid +:+ ")") s1,
       "Process " +:+ Text.str_of_Z pid +:+ " terminated")
  end.

(** [format(n, 'x')] *)
Definition hex_of_nat (n : nat) : string :=
  HexadecimalString.NilEmpty.string_of_uint (N.to_hex_uint (N.of_nat n)).

(** Zeros in front up to the width. *)
Fixpoint zeros (n : nat) (s : string) : string :=
  match n with
  | O => s
  | S n' => String "0"%char (zeros n' s)
  end.

(** [f"0x{n:08x}"] *)
Definition mem_address (n : nat) : string :=
  let digits := hex_of_nat n in
  "0x" +:+ zeros (8 - String.length digits) digits.

(** [sys_mem_alloc]: the address is made from the number of blocks held.
    [None] is the [ValueError] of [bytearray] for a negative size, raised
    before anything is stored. *)
Definition sys_mem_alloc (stamp : string) (now : Z) (size : Z) (label : string)
    (s : kstate) : kstate * option string :=
  let addr := mem_address (base.size (memory s)) in
  if decide (size < 0) then (s, None)
  else
    let block := MemBlock size label now
                   (replicate (Z.to_nat size) Byte.x00) in
    let s1 := KState (boot_time s) (processes s)
                (<[addr := block]> (memory s)) (devices s) (files s) (logs s) in
    (_log stamp ("MALLOC: " +:+ Text.str_of_Z size +:+ " bytes at " +:+ addr
                 +:+ " (" +:+ label +:+ ")") s1,
     Some addr).

(** [sys_mem_free] *)
Definition sys_mem_free (stamp : string) (addr : string) (s : kstate)
    : kstate * string :=
  match memory s !! addr with
  | None => (s, "ERROR: Invalid memory address " +:+ addr)
  | Some mem =>
      let s1 := KState (boot_time s) (processes s) (delete addr (memory s))
                  (devices s) (files s) (logs s) in
      (_log stamp ("FREE: " +:+ Text.str_of_Z (mem_size mem) +:+ " bytes at "
                   +:+ addr +:+ " (" +:+ mem_label mem +:+ ")") s1,
       "Freed " +:+ Text.str_of_Z (mem_size mem) +:+ " bytes")
  end.

(** [sys_log] *)
Definition sys_log (stamp message : string) (s : kstate) : kstate * string :=
  (_log stamp ("USER: " +:+ message) s, "OK").

(** [sys_mount]: the key is made from the number of devices held. *)
Definition sys_mount (stamp : string) (now : Z) (device mountpoint : string)
    (s : kstate) : kstate * string :=
  let dev_id := "dev_" +:+ str_of_nat (length (devices s)) in
  let s1 := KState (boot_time s) (processes s) (memory s)
              (dict_set dev_id (Device device mountpoint now "online" None)
                 (devices s))
              (files s) (logs s) in
  (_log stamp ("MOUNT: " +:+ device +:+ " on " +:+ mountpoint) s1,
   "Device " +:+ device +:+ " mounted on " +:+ mountpoint).

(** The loop of [sys_unmount]: mark the first device of that mount point,
    whatever its status; [None] when there is none. *)
Fixpoint unmount_first (now : Z) (mountpoint : string)
    (d : list (string * device)) : option (list (string * device)) :=
  match d with
  | [] => None
  | (k, dev) :: rest =>
      if decide (dev_mountpoint dev = mountpoint) then
        Some ((k, Device (dev_device dev) (dev_mountpoint dev)
                    (dev_mounted dev) "unmounted" (Some now)) :: rest)
      else (λ rest', (k, dev) :: rest') <$> unmount_first now mountpoint rest
  end.

(** [sys_unmount] *)
Definition sys_unmount (stamp : string) (now : Z) (mountpoint : string)
    (s : kstate) : kstate * string :=
  match unmount_first now mountpoint (devices s) with
  | Some devices' =>
      let s1 := KState (boot_time s) (processes s) (memory s) devices'
                  (files s) (logs s) in
      (_log stamp ("UNMOUNT: " +:+ mountpoint) s1,
       "Device unmounted from " +:+ mountpoint)
  | None => (s, "ERROR: No device mounted on " +:+ mountpoint)
  end.

(** The number an address stands for: the hexadecimal digits after [0x]. *)
Definition address_index (addr : string) : option N :=
  match addr with
  | String "0"%char (String "x"%char digits) =>
      N.of_hex_uint <$> HexadecimalString.NilEmpty.uint_of_string digits
  | _ => None
  end.

(** One call on the kernel.  The package syscalls and the dispatcher
    [syscall], which logs an unknown name or a failed call, act on this
    state through [_log] alone; they are the last case. *)
Inductive kstep : kstate → kstate → Prop :=
  | kstep_read stamp filepath s :
      kstep s (sys_read stamp filepath s).1
  | kstep_write stamp now1 now2 filepath data s :
      kstep s (sys_write stamp now1 now2 filepath data s).1
  | kstep_exec stamp now pid name command s :
      kstep s (sys_exec stamp now pid name command s).1
  | kstep_kill stamp now pid s :
      kstep s (sys_kill stamp now pid s).1
  | kstep_mem_alloc stamp now size label s :
      kstep s (sys_mem_alloc stamp now size label s).1
  | kstep_mem_free stamp addr s :
      kstep s (sys_mem_free stamp addr s).1
  | kstep_mount stamp now device mountpoint s :
      kstep s (sys_mount stamp now device mountpoint s).1
  | kstep_unmount stamp now mountpoint s :
      kstep s (sys_unmount stamp now mountpoint s).1
  | kstep_log stamp message s :
      kstep s (_log stamp message s).

(** The key that [sys_mount] makes for the device number [i]. *)
Definition dev_key (i : nat) : string := "dev_" +:+ str_of_nat i.

(** The blocks sit at the addresses below their number: what allocation
    alone produces, and what a free can undo. *)
Definition dense (m : gmap string mem_block) : Prop :=
  ∀ addr, is_Some (m !! addr) →
          ∃ i, (i < base.size m)%nat ∧ addr = mem_address i.

End MiniKernel.

(** ** More sample data *)

Module MoreSamples.

Import AddPackageManager MiniKernel.

Definition resolved_db : database :=
  Database
    [PackageRow "vim" "9.0" 3500000 "vim.deb" 10 0 0;
     PackageRow "libc" "2.38" 9000000 "libc.deb" 11 1 0]
    [DependencyRow "vim" "libc"] [] [] [] [] [].

Definition small_index : gmap string (gmap string string) :=
  {[ "vim" := {[ "Version" := "9.0"; "Size" := "3500000";
                 "Depends" := "libc (>= 2.0), ncurses" ]} ]}.

Definition fresh_manager : manager :=
  Manager Samples.empty_db ∅ (IndexOf small_index).

(** A kernel with nothing in it. *)
Definition booted : kstate := KState 0 ∅ ∅ [] ∅ [].

(** Two blocks allocated on [booted]. *)
Definition two_blocks : kstate :=
  (sys_mem_alloc "t1" 2 32 "b" (sys_mem_alloc "t0" 1 16 "a" booted).1).1.

End MoreSamples.

(** * Properties *)

(** ** Package registry and hidden files *)

Module DatabaseManagerFacts.

Import DatabaseManager Samples.

(** Filtering twice with the same test changes nothing more. *)
Lemma filter_twice {A} (P : A → Prop) `{!∀ x, Decision (P x)} (l : list A) :
  filter P (filter P l) = filter P l.
Proof.
  induction l as [|a l IH]; [done|].
  rewrite filter_cons. destruct (decide (P a)) as [Ha|Ha]; [|done].
  rewrite filter_cons. destruct (decide (P a)); [|done]. by rewrite IH.
Qed.

(** Nothing passes a test and its negation. *)
Lemma filter_contradict {A} (P : A → Prop) `{!∀ x, Decision (P x)} (l : list A) :
  filter P (filter (λ x, ¬ P x) l) = [].
Proof.
  induction l as [|a l IH]; [done|].
  rewrite filter_cons. destruct (decide (¬ P a)) as [Ha|Ha]; [|done].
  rewrite filter_cons. destruct (decide (P a)); [done|]. exact IH.
Qed.

(** Membership in the set [needed] that the loop of
    [get_orphaned_packages] builds, started from [acc]. *)
Lemma needed_fold (deps : list dependency_row) (pkgs : list string)
    (acc : gset string) (x : string) :
  x ∈ foldl (λ needed pkg,
               needed ∪ list_to_set
                 (dep_depends_on <$> filter (λ e, dep_package e = pkg) deps))
            acc pkgs
  ↔ x ∈ acc ∨ ∃ pkg e, pkg ∈ pkgs ∧ e ∈ deps ∧ dep_package e = pkg
                        ∧ dep_depends_on e = x.
Proof.
  revert acc. induction pkgs as [|pkg pkgs IH]; intros acc; simpl.
  - split; [auto|]. intros [H|(pkg & e & H & _)]; [done|].
    by apply elem_of_nil in H.
  - rewrite IH, elem_of_union, elem_of_list_to_set, list_elem_of_fmap.
    split.
    + intros [[H|(e & -> & He)]|(p & e & Hp & He & H1 & H2)].
      * by left.
      * apply list_elem_of_filter in He as [He1 He2].
        right. exists pkg, e. split_and!; auto. left.
      * right. exists p, e. split_and!; auto. by right.
    + intros [H|(p & e & Hp & He & H1 & H2)]; [by left; left|].
      apply elem_of_cons in Hp as [->|Hp].
      * left; right. exists e. split; [done|].
        apply list_elem_of_filter. done.
      * right. exists p, e. done.
Qed.

(** C3. [get_orphaned_packages] returns exactly A − N: a name is returned
    if and only if some package row of that name has [auto_installed = 1]
    and no row with [auto_installed = 0] has a dependency edge to it.  Only
    the edges that leave manually installed packages count, one level deep:
    an edge from another auto-installed package protects nothing. *)
Theorem get_orphaned_packages_exact (d : database) (x : string) :
  x ∈ get_orphaned_packages d ↔
    (∃ p, p ∈ packages d ∧ pkg_name p = x ∧ pkg_auto_installed p = 1)
    ∧ ¬ (∃ m e, m ∈ packages d ∧ pkg_auto_installed m = 0
                ∧ e ∈ dependencies d
                ∧ dep_package e = pkg_name m ∧ dep_depends_on e = x).
Proof.
  unfold get_orphaned_packages.
  rewrite list_elem_of_filter, needed_fold, list_elem_of_fmap.
  split.
  - intros [Hn (p & -> & Hp)]. apply list_elem_of_filter in Hp as [Ha Hp].
    split; [by exists p|].
    intros (m & e & Hm & Hm0 & He & H1 & H2). apply Hn. right.
    exists (pkg_name m), e. split_and!; auto.
    apply list_elem_of_fmap. exists m. split; [done|].
    apply list_elem_of_filter. done.
  - intros [(p & Hp & <- & Ha) Hn]. split.
    + intros [H|(pkg & e & Hpkg & He & H1 & H2)];
        [by apply elem_of_empty in H|].
      apply list_elem_of_fmap in Hpkg as (m & -> & Hm).
      apply list_elem_of_filter in Hm as [Hm0 Hm].
      apply Hn. exists m, e. done.
    + exists p. split; [done|]. apply list_elem_of_filter. done.
Qed.

(** On the sample: [libc] is kept, being needed by [vim]; [libbar] is
    returned although [libfoo] depends on it, [libfoo] being auto-installed
    itself. *)
Example orphans_of_package_db :
  get_orphaned_packages package_db = ["libfoo"; "libbar"].
Proof. reflexivity. Qed.

(** C7. [remove_package] succeeds, and a second call succeeds too and
    leaves the store as the first left it; after the call the package row
    is gone and no dependency edge names the package on either side. *)
Theorem remove_package_idempotent (name : string) (d : database) :
  let first := remove_package name d in
  let second := remove_package name first.1 in
  first.2 = true ∧ second.2 = true ∧ second.1 = first.1
  ∧ get_package name first.1 = None
  ∧ filter (λ e, dep_package e = name ∨ dep_depends_on e = name)
           (dependencies first.1) = [].
Proof.
  simpl. split_and!; try done.
  - unfold remove_package, set_dependencies, set_packages; simpl.
    by rewrite !filter_twice.
  - unfold get_package; simpl.
    rewrite (filter_contradict (λ p, pkg_name p = name)). done.
  - apply (filter_contradict
             (λ e, dep_package e = name ∨ dep_depends_on e = name)).
Qed.

(** C2, as the code has it.  [write_hidden_file] replaces the whole row:
    the row found under [path] afterwards holds the new content, its
    length as size, the first clock reading as created-time, the second as
    modified-time and the default permissions, whether or not a row was
    there before; the rows of other paths are as they were. *)
Theorem write_hidden_file_replaces (now1 now2 : Z) (path : string)
    (content : list Byte.byte) (d : database) :
  let after := write_hidden_file now1 now2 path content d in
  after.2 = true
  ∧ get_hidden_file path after.1
    = Some (HiddenFileRow path content (Z.of_nat (length content))
              now1 now2 "rw-r--r--")
  ∧ read_hidden_file path after.1 = Some content
  ∧ filter (λ f, hf_path f ≠ path) (hidden_files after.1)
    = filter (λ f, hf_path f ≠ path) (hidden_files d).
Proof.
  simpl. unfold read_hidden_file, get_hidden_file; simpl.
  rewrite !filter_app, (filter_contradict (λ f, hf_path f = path)).
  rewrite filter_twice. simpl.
  rewrite !filter_cons, !filter_nil. simpl.
  destruct (decide (path = path)); [|done].
  destruct (decide (path ≠ path)); [done|].
  by rewrite app_nil_r.
Qed.

(** C2 fails as stated: the file was created at time 100, and after a
    write at time 200 its created-time is 200, not 100. *)
Lemma write_hidden_file_resets_created_time :
  hf_created_time <$> get_hidden_file "/etc/motd" one_file = Some 100
  ∧ hf_created_time <$>
      get_hidden_file "/etc/motd"
        (write_hidden_file 200 200 "/etc/motd" [Byte.x6f; Byte.x6b] one_file).1
    = Some 200
  ∧ hf_created_time <$>
      get_hidden_file "/etc/motd"
        (write_hidden_file 200 200 "/etc/motd" [Byte.x6f; Byte.x6b] one_file).1
    ≠ hf_created_time <$> get_hidden_file "/etc/motd" one_file.
Proof. split_and!; [reflexivity|reflexivity|]. vm_compute. congruence. Qed.

End DatabaseManagerFacts.

(** ** Container life cycle *)

Module ContainerEngineFacts.

Import ContainerEngine Samples.

Lemma find_container_Some key d c :
  find_container key d = Some c →
  c ∈ containers d ∧ (ctr_name c = key ∨ ctr_id c = key).
Proof.
  unfold find_container. intros H. apply head_Some in H as [l' H].
  assert (Hin : c ∈ filter (λ c, ctr_name c = key ∨ ctr_id c = key)
                      (containers d)) by (rewrite H; left).
  apply list_elem_of_filter in Hin as [? ?]. done.
Qed.


Lemma mark_running_name now pid cid c :
  ctr_name (mark_running now pid cid c) = ctr_name c.
Proof. unfold mark_running. by destruct (decide _). Qed.

Lemma mark_running_id now pid cid c :
  ctr_id (mark_running now pid cid c) = ctr_id c.
Proof. unfold mark_running. by destruct (decide _). Qed.

Lemma mark_stopped_name cid c : ctr_name (mark_stopped cid c) = ctr_name c.
Proof. unfold mark_stopped. by destruct (decide _). Qed.

Lemma mark_stopped_id cid c : ctr_id (mark_stopped cid c) = ctr_id c.
Proof. unfold mark_stopped. by destruct (decide _). Qed.

#[local] Hint Resolve mark_running_name mark_running_id
  mark_stopped_name mark_stopped_id : core.









(** What [create_container] does, branch by branch. *)
Lemma create_container_cases now draws name image command ports volumes env e :
  let r := create_container now draws name image command ports volumes env e in
  (find_image image (db e) = None ∧ r = (e, ImageNotFound))
  ∨ (is_Some (find_image image (db e))
     ∧ (∃ c, c ∈ containers (db e) ∧ ctr_name c = name)
     ∧ r = (e, NameExists))
  ∨ (is_Some (find_image image (db e))
     ∧ Forall (λ c, ctr_name c ≠ name) (containers (db e))
     ∧ unique_id "ctr_" (ctr_id <$> containers (db e)) draws = None
     ∧ r = (e, DrawsExhausted))
  ∨ (∃ img cid,
       find_image image (db e) = Some img
       ∧ Forall (λ c, ctr_name c ≠ name) (containers (db e))
       ∧ unique_id "ctr_" (ctr_id <$> containers (db e)) draws = Some cid
       ∧ r = (set_db e (set_containers (db e)
                (containers (db e) ++
                 [ContainerRow cid name (img_id img) "created" now None None
                    (ip_of_host (size (net_containers (bridge0 e)) + 2))
                    (default [] ports) (default [] volumes) (default [] env)
                    command])),
              Created cid)).
Proof.
  unfold create_container.
  destruct (find_image image (db e)) as [img|] eqn:Himg; [|by left].
  right.
  destruct (head (filter (λ c, ctr_name c = name) (containers (db e))))
    as [c|] eqn:Hname.
  { left. split_and!; [done| |done]. exists c.
    apply head_Some in Hname as [l' Hl].
    assert (Hin : c ∈ filter (λ c, ctr_name c = name) (containers (db e)))
      by (rewrite Hl; left).
    by apply list_elem_of_filter in Hin as [? ?]. }
  right.
  assert (Hfree : Forall (λ c, ctr_name c ≠ name) (containers (db e))).
  { apply head_None in Hname. apply Forall_forall. intros c Hc Heq.
    assert (Hin : c ∈ filter (λ c, ctr_name c = name) (containers (db e)))
      by (by apply list_elem_of_filter).
    rewrite Hname in Hin. by apply elem_of_nil in Hin. }
  destruct (unique_id _ _ draws) as [cid|] eqn:Hid.
  - right. exists img, cid. done.
  - left. done.
Qed.

Lemma create_container_name_taken now draws name image command ports volumes
    env e :
  (∃ c, c ∈ containers (db e) ∧ ctr_name c = name) →
  let r := create_container now draws name image command ports volumes env e in
  r.1 = e ∧ returned r.2 = None
  ∧ (r.2 = NameExists ∨ (find_image image (db e) = None ∧ r.2 = ImageNotFound)).
Proof.
  intros (c & Hc & Hn). cbv zeta.
  destruct (create_container_cases now draws name image command ports
              volumes env e)
    as [[Hi Hr]|[(Hi & _ & Hr)|[(_ & Hfree & _)|(img & cid & _ & Hfree & _)]]].
  - rewrite Hr. simpl. auto.
  - rewrite Hr. simpl. auto.
  - rewrite Forall_forall in Hfree. by destruct (Hfree c Hc).
  - rewrite Forall_forall in Hfree. by destruct (Hfree c Hc).
Qed.

(** A successful [create_container] appends one row, of the returned id,
    the requested name, status [created], no pid, and the address made
    from the size of the bridge map; the bridge is left as it was. *)
Lemma create_container_created now draws name image command ports volumes
    env e cid :
  (create_container now draws name image command ports volumes env e).2
  = Created cid →
  ∃ row,
    containers (db (create_container now draws name image command ports
                      volumes env e).1) = containers (db e) ++ [row]
    ∧ ctr_id row = cid ∧ ctr_name row = name ∧ ctr_status row = "created"
    ∧ ctr_pid row = None
    ∧ ctr_ip_address row = ip_of_host (size (net_containers (bridge0 e)) + 2)
    ∧ bridge0 (create_container now draws name image command ports
                 volumes env e).1 = bridge0 e.
Proof.
  destruct (create_container_cases now draws name image command ports
              volumes env e)
    as [[Hi Hr]|[(Hi & _ & Hr)|[(_ & _ & _ & Hr)|(img & cid' & _ & _ & _ & Hr)]]];
    rewrite Hr; simpl; try done.
  intros [= ->]. eexists. split; [reflexivity|]. done.
Qed.

(** C6. When a container of that name exists, [create_container] returns
    [None] and leaves the engine, so every table, as it was; the refusal
    is the name conflict unless the image does not resolve either, the
    image being looked up first. *)
Theorem create_container_name_conflict (now : Z) (draws : list string)
    (name image command : string) (ports volumes : option (list string))
    (env : option (list (string * string))) (e : engine) :
  (∃ c, c ∈ containers (db e) ∧ ctr_name c = name) →
  let r := create_container now draws name image command ports volumes env e in
  r.1 = e ∧ returned r.2 = None
  ∧ (r.2 = NameExists ∨ (find_image image (db e) = None ∧ r.2 = ImageNotFound)).
Proof. apply create_container_name_taken. Qed.

Lemma create_container_name_conflict_witness :
  (∃ c, c ∈ containers (db with_web) ∧ ctr_name c = "web")
  ∧ create_container 5 ["z9y8x7w6v5u4"] "web" "alpine" "/bin/sh"
      None None None with_web
    = (with_web, NameExists).
Proof.
  assert (H : ∃ c, c ∈ containers (db with_web) ∧ ctr_name c = "web").
  { exists web_row. split; [|reflexivity]. vm_compute. left. }
  split; [exact H|].
  destruct (create_container_name_conflict 5 ["z9y8x7w6v5u4"] "web" "alpine"
              "/bin/sh" None None None with_web H) as (H1 & _ & H3).
  destruct H3 as [H3|[H3 _]]; [|discriminate H3].
  rewrite <- H1 at 2. rewrite <- H3. apply surjective_pairing.
Defined.

(** Two calls in a row under one name: the second changes nothing. *)
Lemma create_container_twice now1 draws1 name image1 command1 ports1 volumes1
    env1 now2 draws2 image2 command2 ports2 volumes2 env2 e cid :
  let first := create_container now1 draws1 name image1 command1 ports1
                 volumes1 env1 e in
  first.2 = Created cid →
  let second := create_container now2 draws2 name image2 command2 ports2
                  volumes2 env2 first.1 in
  second.1 = first.1 ∧ returned second.2 = None.
Proof.
  intros first H second.
  apply create_container_created in H as (row & Hrows & _ & Hn & _).
  destruct (create_container_name_taken now2 draws2 name image2 command2 ports2
              volumes2 env2 first.1) as (? & ? & _); [|done].
  exists row. split; [|done]. fold first in Hrows. rewrite Hrows.
  apply elem_of_app. right. left.
Qed.

End ContainerEngineFacts.

Module LifecycleFacts.

Import ContainerEngine Lifecycle ContainerEngineFacts Samples.

Lemma row_ok_mark_running now pid cid c :
  row_ok c → row_ok (mark_running now pid cid c).
Proof.
  intros H. unfold mark_running. destruct (decide _); [|done].
  split; simpl; [auto|]. split; [done|]. by eexists.
Qed.

Lemma row_ok_mark_stopped cid c : row_ok c → row_ok (mark_stopped cid c).
Proof.
  intros H. unfold mark_stopped. destruct (decide _); [|done].
  split; simpl; [auto|]. split; [by intros [? [=]]|done].
Qed.

(** Every operation keeps the rows well formed. *)
Lemma step_preserves_rows e e' :
  step e e' →
  Forall row_ok (containers (db e)) → Forall row_ok (containers (db e')).
Proof.
  intros Hstep Hok.
  destruct Hstep as [now draws name image command ports vols env e
                    |now pid key e Hpid|key e|key force e|e].
  - destruct (create_container_cases now draws name image command ports
                vols env e)
      as [[_ Hr]|[(_ & _ & Hr)|[(_ & _ & _ & Hr)|(img & cid & _ & _ & _ & Hr)]]];
      rewrite Hr; simpl; try done.
    apply Forall_app. split; [done|]. apply Forall_singleton.
    split; simpl; [auto|]. split; [by intros [? [=]]|done].
  - unfold start_container. destruct (find_container _ _); [|done]. simpl.
    apply Forall_fmap. eapply Forall_impl; [exact Hok|].
    intros r Hr. by apply row_ok_mark_running.
  - unfold stop_container. destruct (find_container _ _); [|done]. simpl.
    apply Forall_fmap. eapply Forall_impl; [exact Hok|].
    intros r Hr. by apply row_ok_mark_stopped.
  - unfold remove_container. destruct (find_container _ _); [|done].
    destruct (decide _); [done|]. simpl.
    apply Forall_forall. intros r Hr.
    apply list_elem_of_filter in Hr as [_ Hr].
    rewrite Forall_forall in Hok. auto.
  - done.
Qed.

(** C9. In every state reached through [create_container],
    [start_container] and [stop_container] (and also [remove_container]
    and a restart of the engine) from an empty [containers] table, every
    row has status [created], [running] or [stopped], and its pid is
    non-null exactly when the status is [running]. *)
Theorem reachable_rows_ok (e : engine) :
  reachable e → Forall row_ok (containers (db e)).
Proof.
  induction 1 as [d Hd|e e' _ IH Hstep].
  - simpl. rewrite Hd. constructor.
  - by eapply step_preserves_rows.
Qed.

Lemma reachable_rows_ok_witness :
  reachable web_running ∧ Forall row_ok (containers (db web_running)).
Proof.
  assert (H : reachable web_running).
  { unfold web_running.
    apply (reachable_step with_web); [|apply step_start; lia].
    unfold with_web.
    apply (reachable_step with_image); [|apply step_create].
    unfold with_image.
    change (create_image 1 ["q7c2m9x4k1zd"] "alpine" "latest" None
              (init empty_db)).1
      with (init (Database [] [] [] []
                    [ImageRow "img_q7c2m9x4k1zd" "alpine" "latest" 100000000 1
                       None ["layer_base"; "layer_app"; "layer_config"]]
                    [] [])).
    apply reachable_init. reflexivity. }
  split; [exact H|]. exact (reachable_rows_ok web_running H).
Defined.

End LifecycleFacts.

(** ** Addresses *)

Module Ipv4Facts.

Import ContainerEngine Ipv4.

(** A decimal numeral holds no dot, so [split] leaves it whole. *)
Lemma split_dots_numeral (d : uint) :
  split_dots (NilEmpty.string_of_uint d) = [NilEmpty.string_of_uint d].
Proof.
  induction d as [|d IH|d IH|d IH|d IH|d IH|d IH|d IH|d IH|d IH|d IH]; simpl;
    [done|..]; by rewrite IH.
Qed.

Lemma str_of_nat_nonempty (n : nat) : str_of_nat n ≠ "".
Proof.
  unfold str_of_nat. intros H.
  pose proof (NilEmpty.usu (Nat.to_uint n)) as Hu. rewrite H in Hu.
  simpl in Hu. injection Hu as Hu.
  pose proof (DecimalNat.Unsigned.of_to n) as Hn.
  rewrite <- Hu in Hn. simpl in Hn.
  subst n. discriminate Hu.
Qed.

Lemma str_of_nat_inj (n m : nat) : str_of_nat n = str_of_nat m → n = m.
Proof.
  unfold str_of_nat. intros H. apply DecimalNat.Unsigned.to_uint_inj.
  pose proof (NilEmpty.usu (Nat.to_uint n)) as Hn.
  pose proof (NilEmpty.usu (Nat.to_uint m)) as Hm.
  rewrite H in Hn. congruence.
Qed.

(** Different hosts give different address texts. *)
Lemma ip_of_host_inj (n m : nat) : ip_of_host n = ip_of_host m → n = m.
Proof.
  unfold ip_of_host. intros H. apply str_of_nat_inj.
  by apply (inj (String.app "172.17.0.")) in H.
Qed.

Lemma octet_str_of_nat (n : nat) :
  (n ≤ 255)%nat → octet (str_of_nat n) = Some (Z.of_nat n).
Proof.
  intros Hn. unfold octet.
  pose proof (str_of_nat_nonempty n) as Hne.
  destruct (str_of_nat n) as [|a s] eqn:Hs; [done|].
  rewrite <- Hs. unfold str_of_nat.
  rewrite NilEmpty.usu, DecimalNat.Unsigned.of_to.
  rewrite decide_True by lia. done.
Qed.

(** Up to host 255 the text reads back as base plus host. *)
Lemma value_ip_of_host (n : nat) :
  (n ≤ 255)%nat → value (ip_of_host n) = Some (bridge_base + Z.of_nat n).
Proof.
  intros Hn. unfold value, ip_of_host.
  assert (Hsplit : split_dots ("172.17.0." +:+ str_of_nat n)
                   = ["172"; "17"; "0"; str_of_nat n]).
  { pose proof (split_dots_numeral (Nat.to_uint n)) as Hs.
    fold (str_of_nat n) in Hs. revert Hs. generalize (str_of_nat n).
    intros s Hs. simpl. change ("" +:+ s) with s. by rewrite Hs. }
  rewrite Hsplit, (octet_str_of_nat n Hn).
  reflexivity.
Qed.

Lemma in_bridge_subnet_ip_of_host (n : nat) :
  (n ≤ 255)%nat → in_bridge_subnet (ip_of_host n).
Proof.
  intros Hn. unfold in_bridge_subnet. rewrite value_ip_of_host by done.
  unfold bridge_base. lia.
Qed.

(** Host 256 is not an address at all: the last octet overflows. *)
Example host_256_is_no_address : value (ip_of_host 256) = None.
Proof. reflexivity. Qed.

End Ipv4Facts.

(** ** The commands: [crun] sessions and [dbclean] *)

Module KernelAddCLIFacts.

Import ContainerEngine KernelAddCLI ContainerEngineFacts Ipv4Facts Samples.

Lemma filter_none {A} (P : A → Prop) `{!∀ x, Decision (P x)} (l : list A) :
  Forall (λ x, ¬ P x) l → filter P l = [].
Proof.
  induction 1 as [|a l Ha _ IH]; [done|].
  rewrite filter_cons. by destruct (decide (P a)).
Qed.

Lemma fmap_id_on {A} (f : A → A) (l : list A) :
  Forall (λ x, f x = x) l → f <$> l = l.
Proof.
  induction 1 as [|a l Ha _ IH]; [done|]. by rewrite fmap_cons, Ha, IH.
Qed.

(** One clean [crun]: the row is appended already running, with the
    address of the map size before the call, and the map grows by one
    key. *)
Lemma crun_clean_step now1 draws now2 pid args e :
  (2 ≤ length args)%nat → draws ≠ [] →
  is_Some (find_image (default "" (args !! 1%nat)) (db e)) →
  default "" (args !! 0%nat) ∉ ctr_name <$> containers (db e) →
  _generate_id "ctr_" (default "" (head draws)) ∉ ctr_id <$> containers (db e) →
  _generate_id "ctr_" (default "" (head draws)) ∉ ctr_name <$> containers (db e) →
  net_containers (bridge0 e) !! _generate_id "ctr_" (default "" (head draws))
  = None →
  let e' := _cmd_crun now1 draws now2 pid args e in
  ∃ row,
    containers (db e') = containers (db e) ++ [row]
    ∧ ctr_name row = default "" (args !! 0%nat)
    ∧ ctr_id row = _generate_id "ctr_" (default "" (head draws))
    ∧ ctr_status row = "running"
    ∧ ctr_ip_address row = ip_of_host (size (net_containers (bridge0 e)) + 2)
    ∧ images (db e') = images (db e)
    ∧ net_containers (bridge0 e')
      = <[ctr_id row := NetEntry (ctr_name row) (ctr_ip_address row) pid]>
          (net_containers (bridge0 e)).
Proof.
  intros Hlen Hdraws Himg Hname Hid Hidname Hnet.
  destruct args as [|name [|image rest]]; simpl in Hlen; try lia.
  destruct draws as [|suffix more]; [done|]. simpl in *.
  destruct Himg as [img Himg].
  set (cid := _generate_id "ctr_" suffix) in *.
  set (command := match rest with [] => "/bin/sh" | _ :: _ => join_spaces rest end).
  assert (Hcreate :
    create_container now1 (suffix :: more) name image command None None None e
    = (set_db e (set_containers (db e)
         (containers (db e) ++
          [ContainerRow cid name (img_id img) "created" now1 None None
             (ip_of_host (size (net_containers (bridge0 e)) + 2)) [] [] []
             command])),
       Created cid)).
  { unfold create_container. rewrite Himg.
    rewrite (filter_none (λ c, ctr_name c = name)); cycle 1.
    { apply Forall_forall. intros c Hc Heq. apply Hname.
      apply list_elem_of_fmap. by exists c. }
    cbn [head unique_id]. fold cid. by rewrite decide_False. }
  unfold _cmd_crun. fold command. rewrite Hcreate. cbn [returned].
  rewrite decide_False by done.
  set (row := ContainerRow cid name (img_id img) "created" now1 None None
                (ip_of_host (size (net_containers (bridge0 e)) + 2)) [] [] []
                command).
  assert (Hold : Forall (λ c, ¬ (ctr_name c = cid ∨ ctr_id c = cid))
                   (containers (db e))).
  { apply Forall_forall. intros c Hc [Heq|Heq].
    - apply Hidname. apply list_elem_of_fmap. by exists c.
    - apply Hid. apply list_elem_of_fmap. by exists c. }
  unfold start_container, find_container. simpl.
  rewrite filter_app, (filter_none _ _ Hold). simpl.
  rewrite filter_cons, decide_True by (by right). simpl.
  exists (mark_running now2 pid cid row).
  assert (Hrow : mark_running now2 pid cid row
                 = ContainerRow cid name (img_id img) "running" now1 (Some now2)
                     (Some pid)
                     (ip_of_host (size (net_containers (bridge0 e)) + 2))
                     [] [] [] command).
  { unfold mark_running. by rewrite decide_True. }
  split_and!; try done; try (rewrite Hrow; done).
  rewrite fmap_app. f_equal.
  apply fmap_id_on. eapply Forall_impl; [exact Hold|].
  intros c Hc. unfold mark_running. rewrite decide_False; [done|]. auto.
Qed.

Lemma hosts_from_S k n :
  hosts_from k (S n) = (k + 2)%nat :: hosts_from (S k) n.
Proof.
  unfold hosts_from. simpl. f_equal; [lia|].
  rewrite <- fmap_S_seq, <- list_fmap_compose.
  apply list_fmap_ext. intros _ i _. simpl. lia.
Qed.

Lemma hosts_from_bounds k n :
  Forall (λ h, k + 2 ≤ h ≤ k + n + 1)%nat (hosts_from k n).
Proof.
  unfold hosts_from. apply Forall_fmap, Forall_seq. intros i Hi. simpl. lia.
Qed.

(** What is left of a clean session after its first call is clean for
    the state that call leaves. *)
Lemma clean_session_tail e c cs :
  clean_session e (c :: cs) →
  clean_session (_cmd_crun (call_now1 c) (call_draws c) (call_now2 c)
                   (call_pid c) (call_args c) e) cs.
Proof.
  intros (Hall & Hnames & Hids).
  apply Forall_cons in Hall as [Hc Hall].
  destruct Hc as (Hlen & Hdraws & Himg & Hname & Hid & Hidname & Hidcalls & Hnet).
  destruct (crun_clean_step (call_now1 c) (call_draws c) (call_now2 c)
              (call_pid c) (call_args c) e Hlen Hdraws Himg Hname Hid Hidname
              Hnet)
    as (row & Hrows & Hrn & Hri & _ & _ & Himgs & Hmap).
  apply NoDup_cons in Hnames as [Hn1 Hn2].
  apply NoDup_cons in Hids as [Hi1 Hi2].
  split_and!; [|done|done].
  apply Forall_forall. intros c' Hc'.
  rewrite Forall_forall in Hall.
  destruct (Hall c' Hc') as (Hlen' & Hdraws' & Himg' & Hname' & Hid' & Hidname'
                             & Hidcalls' & Hnet').
  assert (Hne_name : call_name c' ≠ call_name c).
  { intros Heq. apply Hn1. rewrite <- Heq. apply list_elem_of_fmap.
    by exists c'. }
  assert (Hne_id : call_id c' ≠ call_id c).
  { intros Heq. apply Hi1. rewrite <- Heq. apply list_elem_of_fmap.
    by exists c'. }
  rewrite fmap_cons in Hidcalls'. apply not_elem_of_cons in Hidcalls' as [Hx Hy].
  split_and!; try done.
  - unfold find_image in *. by rewrite Himgs.
  - rewrite Hrows, fmap_app. apply not_elem_of_app. split; [done|].
    simpl. apply not_elem_of_cons. split; [|apply not_elem_of_nil].
    by rewrite Hrn.
  - rewrite Hrows, fmap_app. apply not_elem_of_app. split; [done|].
    simpl. apply not_elem_of_cons. split; [|apply not_elem_of_nil].
    by rewrite Hri.
  - rewrite Hrows, fmap_app. apply not_elem_of_app. split; [done|].
    simpl. apply not_elem_of_cons. split; [|apply not_elem_of_nil].
    by rewrite Hrn.
  - rewrite Hmap, Hri. by rewrite lookup_insert_ne.
Qed.

Lemma crun_all_cons c cs e :
  crun_all (c :: cs) e
  = crun_all cs (_cmd_crun (call_now1 c) (call_draws c) (call_now2 c)
                   (call_pid c) (call_args c) e).
Proof. reflexivity. Qed.

(** The rows and the map size after a clean session. *)
Lemma crun_all_clean calls : ∀ e,
  clean_session e calls →
  ∃ rows,
    containers (db (crun_all calls e)) = containers (db e) ++ rows
    ∧ ctr_ip_address <$> rows
      = ip_of_host <$> hosts_from (size (net_containers (bridge0 e)))
                         (length calls)
    ∧ size (net_containers (bridge0 (crun_all calls e)))
      = (size (net_containers (bridge0 e)) + length calls)%nat.
Proof.
  induction calls as [|c cs IH]; intros e Hclean.
  - exists []. simpl. rewrite app_nil_r. split_and!; [done|done|lia].
  - pose proof (clean_session_tail e c cs Hclean) as Htail.
    destruct Hclean as (Hall & _ & _).
    apply Forall_cons in Hall as [Hc _].
    destruct Hc as (Hlen & Hdraws & Himg & Hname & Hid & Hidname & _ & Hnet).
    destruct (crun_clean_step (call_now1 c) (call_draws c) (call_now2 c)
                (call_pid c) (call_args c) e Hlen Hdraws Himg Hname Hid
                Hidname Hnet)
      as (row & Hrows & _ & Hri & _ & Hip & _ & Hmap).
    destruct (IH _ Htail) as (rows & Hrows' & Hips & Hsize).
    assert (Hgrow : size (net_containers (bridge0
                      (_cmd_crun (call_now1 c) (call_draws c) (call_now2 c)
                         (call_pid c) (call_args c) e)))
                    = S (size (net_containers (bridge0 e)))).
    { rewrite Hmap. apply map_size_insert_None. by rewrite Hri. }
    exists (row :: rows). rewrite crun_all_cons. split_and!.
    + rewrite Hrows', Hrows, <- app_assoc. done.
    + rewrite fmap_cons, Hips, Hgrow, length_cons, hosts_from_S, fmap_cons, Hip.
      done.
    + rewrite Hsize, Hgrow, length_cons. lia.
Qed.

(** Consecutive hosts read as strictly increasing values. *)
Lemma hosts_values_sorted n : ∀ k,
  StronglySorted Z.lt
    ((λ h, Ipv4.bridge_base + Z.of_nat h) <$> hosts_from k n).
Proof.
  induction n as [|n IH]; intros k; [constructor|].
  rewrite hosts_from_S, fmap_cons. constructor; [apply IH|].
  apply Forall_fmap. eapply Forall_impl; [apply hosts_from_bounds|].
  intros h Hh. simpl in *. lia.
Qed.

(** C1, as the code has it.  An address is made from the number of
    entries of the bridge map, which only [start_container] and
    [stop_container] change: every created container gets
    172.17.0.(entries + 2) and [create_container] leaves the map alone.
    So in a session of [crun] commands (each container started as soon as
    it is created, none stopped or removed, no drawn id colliding with a
    name or a key of the map) that starts with [k] entries and stays below
    host 256, the addresses handed out are 172.17.0.(k+2), 172.17.0.(k+3),
    ... in this order: strictly increasing as 32-bit values, pairwise
    distinct and inside 172.17.0.0/16, the first being 172.17.0.2 when the
    map is empty. *)
Theorem crun_session_addresses (calls : list crun_call) (e : engine) :
  clean_session e calls →
  (size (net_containers (bridge0 e)) + length calls ≤ 254)%nat →
  let k := size (net_containers (bridge0 e)) in
  let ips := ctr_ip_address <$> rows_added e (crun_all calls e) in
  ips = ip_of_host <$> hosts_from k (length calls)
  ∧ Ipv4.value <$> ips
    = Some <$> ((λ h, Ipv4.bridge_base + Z.of_nat h) <$>
                  hosts_from k (length calls))
  ∧ Ipv4.increasing ips
  ∧ NoDup ips
  ∧ Forall Ipv4.in_bridge_subnet ips
  ∧ ip_of_host (0 + 2) = "172.17.0.2"
  ∧ (∀ now draws name image command ports vols env e0 cid,
       (create_container now draws name image command ports vols env e0).2
       = Created cid →
       ∃ row,
         containers (db (create_container now draws name image command ports
                           vols env e0).1) = containers (db e0) ++ [row]
         ∧ ctr_id row = cid
         ∧ ctr_ip_address row
           = ip_of_host (size (net_containers (bridge0 e0)) + 2)
         ∧ bridge0 (create_container now draws name image command ports
                      vols env e0).1 = bridge0 e0).
Proof.
  intros Hclean Hbound k ips.
  destruct (crun_all_clean calls e Hclean) as (rows & Hrows & Hips & _).
  assert (Hlist : ips = ip_of_host <$> hosts_from k (length calls)).
  { unfold ips, rows_added. by rewrite Hrows, drop_app_length. }
  assert (Hsmall : Forall (λ h, h ≤ 255)%nat (hosts_from k (length calls))).
  { eapply Forall_impl; [apply hosts_from_bounds|]. intros h Hh. simpl in *.
    unfold k. lia. }
  assert (Hvalues : Ipv4.value <$> ips
                    = Some <$> ((λ h, Ipv4.bridge_base + Z.of_nat h) <$>
                                  hosts_from k (length calls))).
  { rewrite Hlist, <- !list_fmap_compose.
    apply Forall_fmap_ext. eapply Forall_impl; [exact Hsmall|].
    intros h Hh. simpl. by apply value_ip_of_host. }
  split_and!.
  - exact Hlist.
  - exact Hvalues.
  - eexists. split; [exact Hvalues|]. apply hosts_values_sorted.
  - rewrite Hlist. apply NoDup_fmap_2.
    + intros a b. apply ip_of_host_inj.
    + unfold hosts_from. apply NoDup_fmap_2; [|apply NoDup_seq].
      intros a b. lia.
  - rewrite Hlist. apply Forall_fmap. eapply Forall_impl; [exact Hsmall|].
    intros h Hh. by apply in_bridge_subnet_ip_of_host.
  - reflexivity.
  - intros now draws name image command ports vols env e0 cid Hcreated.
    destruct (create_container_created _ _ _ _ _ _ _ _ _ _ Hcreated)
      as (row & H1 & H2 & _ & _ & _ & H3 & H4).
    exists row. done.
Qed.

Lemma crun_session_addresses_witness :
  clean_session with_image three_calls
  ∧ (size (net_containers (bridge0 with_image)) + length three_calls ≤ 254)%nat
  ∧ ctr_ip_address <$> rows_added with_image (crun_all three_calls with_image)
    = ["172.17.0.2"; "172.17.0.3"; "172.17.0.4"].
Proof.
  assert (H1 : clean_session with_image three_calls).
  { unfold clean_session. split_and!; compute_done. }
  assert (H2 : (size (net_containers (bridge0 with_image))
                + length three_calls ≤ 254)%nat) by (vm_compute; lia).
  split; [exact H1|]. split; [exact H2|].
  exact (proj1 (crun_session_addresses three_calls with_image H1 H2)).
Defined.

(** C1 fails as stated: two containers created one after the other on a
    new engine, neither started, both receive 172.17.0.2. *)
Lemma create_twice_same_address :
  let first := create_container 2 ["k3x9q2m7w1zp"] "web" "alpine" "/bin/sh"
                 None None None with_image in
  let second := create_container 3 ["t5r8e2w9q6yl"] "db" "alpine" "/bin/sh"
                  None None None first.1 in
  first.2 = Created "ctr_k3x9q2m7w1zp"
  ∧ second.2 = Created "ctr_t5r8e2w9q6yl"
  ∧ ctr_ip_address <$> rows_added with_image second.1
    = ["172.17.0.2"; "172.17.0.2"]
  ∧ ¬ NoDup (ctr_ip_address <$> rows_added with_image second.1).
Proof.
  split_and!; [reflexivity|reflexivity|reflexivity|].
  change (ctr_ip_address <$> rows_added with_image _)
    with ["172.17.0.2"; "172.17.0.2"].
  intros H. apply NoDup_cons in H as [H _]. apply H. left.
Qed.

(** Any run of bare [create_container] calls repeats one address, the
    bridge map being untouched. *)
Lemma create_container_keeps_bridge now draws name image command ports vols
    env e :
  bridge0 (create_container now draws name image command ports vols env e).1
  = bridge0 e.
Proof.
  destruct (create_container_cases now draws name image command ports vols env e)
    as [[_ Hr]|[(_ & _ & Hr)|[(_ & _ & _ & Hr)|(img & cid & _ & _ & _ & Hr)]]];
    by rewrite Hr.
Qed.



(** The comparison is made after [strip()], and is case-sensitive. *)
Example dbclean_trims_the_line :
  (_cmd_dbclean "  DELETE EVERYTHING " package_db).1
  = Database [] [] [] [] [] [] []
  ∧ (_cmd_dbclean "delete everything" package_db).1 = package_db.
Proof. split; reflexivity. Qed.

End KernelAddCLIFacts.

(** ** Repair of the database file *)

Module DatabaseFileFacts.

Import ContainerEngine DatabaseFile Samples.

(** *** Paths *)

Lemma append_empty (s : string) : s +:+ "" = s.
Proof.
  induction s as [|a s IH]; [done|].
  change (String a s +:+ "") with (String a (s +:+ "")). by rewrite IH.
Qed.

Lemma append_differs (s suffix : string) : suffix ≠ "" → s +:+ suffix ≠ s.
Proof.
  intros Hne Heq. apply Hne. apply (inj (String.app s)).
  by rewrite append_empty.
Qed.

Lemma temp_not_db (db_path : string) : db_path +:+ ".temp" ≠ db_path.
Proof. by apply append_differs. Qed.

Lemma backup_not_db (db_path : string) (n : N) :
  db_path +:+ ".backup." +:+ str_of_int n ≠ db_path.
Proof. by apply append_differs. Qed.

Lemma backup_not_temp (db_path : string) (n : N) :
  db_path +:+ ".backup." +:+ str_of_int n ≠ db_path +:+ ".temp".
Proof. intros Heq. apply (inj (String.app db_path)) in Heq. discriminate Heq. Qed.

(** *** Replaying a dump *)

Lemma replay_sound lines : ∀ c,
  replay lines (Sound c) = Sound (replay_tables lines c).
Proof.
  induction lines as [|line lines IH]; intros c; [done|].
  unfold replay, replay_tables in *. simpl.
  destruct (execute line c); simpl; apply IH.
Qed.

Lemma replay_tables_app l1 l2 c :
  replay_tables (l1 ++ l2) c = replay_tables l2 (replay_tables l1 c).
Proof. apply foldl_app. Qed.

Lemma no_conflicts_before acc r rest :
  no_conflicts (acc ++ r :: rest) → ¬ Exists (conflicts r) acc.
Proof.
  induction acc as [|a acc IH]; simpl.
  - intros _ H. by apply Exists_nil in H.
  - intros [Ha Hrest] H. apply Exists_cons in H as [H|H].
    + rewrite Forall_app, Forall_cons in Ha. by destruct Ha as (_ & Hr & _).
    + by apply IH.
Qed.

Lemma replay_inserts t rows : ∀ acc c,
  c !! t = Some acc → no_conflicts (acc ++ rows) →
  replay_tables (InsertInto t <$> rows) c = <[t := acc ++ rows]> c.
Proof.
  induction rows as [|r rows IH]; intros acc c Hacc Hok.
  - rewrite app_nil_r. simpl. by rewrite insert_id.
  - rewrite fmap_cons. unfold replay_tables. simpl. rewrite Hacc.
    rewrite decide_False by (by eapply no_conflicts_before).
    simpl.
    fold (replay_tables (InsertInto t <$> rows) (<[t := acc ++ [r]]> c)).
    rewrite (IH (acc ++ [r])).
    + by rewrite insert_insert_eq, <- app_assoc.
    + by rewrite lookup_insert_eq.
    + by rewrite <- app_assoc.
Qed.

Lemma replay_dump_table t rows c :
  c !! t = None → no_conflicts rows →
  replay_tables (dump_table (t, rows)) c = <[t := rows]> c.
Proof.
  intros Hnone Hok. unfold dump_table, replay_tables. simpl.
  rewrite Hnone. simpl.
  fold (replay_tables (InsertInto t <$> rows) (<[t := []]> c)).
  rewrite (replay_inserts t rows []); [|by rewrite lookup_insert_eq|done].
  by rewrite insert_insert_eq.
Qed.

Lemma replay_dump (l : list (string * list any_row)) :
  NoDup l.*1 → Forall (λ p, no_conflicts p.2) l →
  replay_tables (l ≫= dump_table) ∅ = list_to_map (reverse l).
Proof.
  induction l as [|[t rows] l IH] using rev_ind.
  { intros _ _. reflexivity. }
  rewrite fmap_app, NoDup_app, Forall_app.
  intros (Hl & Hfresh & _) [Hoks Hok]. rewrite Forall_singleton in Hok.
  rewrite bind_app, replay_tables_app, IH by done.
  rewrite reverse_snoc, list_to_map_cons.
  change ([(t, rows)] ≫= dump_table) with (dump_table (t, rows) ++ []).
  rewrite app_nil_r. apply replay_dump_table; [|exact Hok].
  apply not_elem_of_list_to_map_1. rewrite fmap_reverse, elem_of_reverse.
  intros Hin. apply (Hfresh t Hin). left.
Qed.

(** Dumping sound content with unique keys into an empty file gives the
    content back. *)
Lemma replay_iterdump (c : gmap string (list any_row)) :
  map_Forall (λ _, no_conflicts) c →
  replay_tables (iterdump (Sound c)).1 ∅ = c.
Proof.
  intros Hkeys. simpl.
  pose proof (merge_sort_Permutation by_name (map_to_list c)) as Hperm.
  rewrite replay_dump.
  - rewrite <- (list_to_map_to_list c) at 2.
    apply list_to_map_proper.
    + rewrite reverse_Permutation, Hperm. apply NoDup_fst_map_to_list.
    + by rewrite reverse_Permutation.
  - rewrite Hperm. apply NoDup_fst_map_to_list.
  - rewrite Hperm. apply map_Forall_to_list in Hkeys.
    eapply Forall_impl; [exact Hkeys|]. by intros [t rows].
Qed.

(** *** Recreating the core tables *)

Lemma create_if_absent_rows c t' t :
  default [] (create_if_absent c t' !! t) = default [] (c !! t).
Proof.
  unfold create_if_absent. destruct (c !! t') eqn:H; [done|].
  destruct (decide (t' = t)) as [->|Hne].
  - by rewrite lookup_insert_eq, H.
  - by rewrite lookup_insert_ne.
Qed.

Lemma create_core_rows ts : ∀ c t,
  default [] (foldl create_if_absent c ts !! t) = default [] (c !! t).
Proof.
  induction ts as [|t' ts IH]; intros c t; [done|].
  simpl. by rewrite IH, create_if_absent_rows.
Qed.

Lemma init_database_sound db_path (disk : gmap string file) c :
  disk !! db_path = Some (Sound c) →
  _init_database db_path disk
  = <[db_path := Sound (foldl create_if_absent c core_tables)]> disk.
Proof. intros H. unfold _init_database, connect. by rewrite !H. Qed.


(** A readable file, no leftover temp file: the repaired file shows the
    rows of every table as before and the backup is the old file. *)
Lemma repair_sound (now : N) (db_path : string) (disk : gmap string file)
    (c : gmap string (list any_row)) :
  disk !! db_path = Some (Sound c) →
  disk !! (db_path +:+ ".temp") = None →
  map_Forall (λ _, no_conflicts) c →
  (repair now db_path disk).2 = true
  ∧ (∀ t, table_rows t ((repair now db_path disk).1 !! db_path)
          = table_rows t (disk !! db_path))
  ∧ (repair now db_path disk).1 !! (db_path +:+ ".backup." +:+ str_of_int now)
    = Some (Sound c)
  ∧ (repair now db_path disk).1 !! (db_path +:+ ".temp") = None.
Proof.
  intros Hdb Htemp Hkeys.
  pose proof (temp_not_db db_path) as Htd.
  pose proof (backup_not_db db_path now) as Hbd.
  pose proof (backup_not_temp db_path now) as Hbt.
  unfold repair. rewrite Hdb.
  set (backup := db_path +:+ ".backup." +:+ str_of_int now) in *.
  set (temp := db_path +:+ ".temp") in *.
  assert (H1 : connect db_path (<[backup := Sound c]> disk)
               = <[backup := Sound c]> disk).
  { unfold connect. by rewrite lookup_insert_ne, Hdb. }
  rewrite H1.
  assert (H2 : connect temp (<[backup := Sound c]> disk)
               = <[temp := Sound ∅]> (<[backup := Sound c]> disk)).
  { unfold connect. by rewrite lookup_insert_ne, Htemp. }
  rewrite H2.
  rewrite lookup_insert_ne, lookup_insert_ne, Hdb, lookup_insert_eq by done.
  destruct (iterdump (Sound c)) as [lines raises] eqn:Hdump.
  assert (Hlines : lines = (iterdump (Sound c)).1) by (by rewrite Hdump).
  assert (Hraises : raises = false) by (by injection Hdump).
  subst raises. rewrite insert_insert_eq, lookup_insert_eq.
  rewrite replay_sound, Hlines, replay_iterdump by done.
  rewrite delete_insert_eq.
  rewrite (init_database_sound _ _ c) by apply lookup_insert_eq.
  rewrite insert_insert_eq. cbn [fst snd].
  split_and!.
  - done.
  - intros t. rewrite lookup_insert_eq. apply create_core_rows.
  - rewrite lookup_insert_ne, lookup_delete_ne, lookup_insert_eq by done. done.
  - rewrite lookup_insert_ne by done. apply lookup_delete_eq.
Qed.


(** The counts of package and container rows of a store survive the
    repair of its file. *)
Lemma repair_keeps_counts (now : N) (db_path : string)
    (disk : gmap string file) (d : database) (c : gmap string (list any_row)) :
  file_of d = Sound c →
  disk !! db_path = Some (Sound c) →
  disk !! (db_path +:+ ".temp") = None →
  map_Forall (λ _, no_conflicts) c →
  length (table_rows "packages" ((repair now db_path disk).1 !! db_path))
  = length (packages d)
  ∧ length (table_rows "containers" ((repair now db_path disk).1 !! db_path))
    = length (containers d).
Proof.
  intros Hd Hdb Htemp Hkeys.
  destruct (repair_sound now db_path disk c Hdb Htemp Hkeys) as (_ & Hrows & _).
  rewrite !Hrows, Hdb, <- Hd. split.
  - change (table_rows "packages" (Some (file_of d)))
      with (OfPackage <$> packages d). apply length_fmap.
  - change (table_rows "containers" (Some (file_of d)))
      with (OfContainer <$> containers d). apply length_fmap.
Qed.




End DatabaseFileFacts.

(** * Properties of the rest of the code *)

(** ** DatabaseManager, the other methods *)

Module DatabaseManagerRestFacts.

Import DatabaseManager DatabaseManagerRest DatabaseManagerFacts Samples.

Lemma filter_app_singleton_ne {A} (P : A → Prop) `{!∀ x, Decision (P x)}
    (l : list A) (a : A) :
  ¬ P a → filter P (l ++ [a]) = filter P l.
Proof.
  intros Ha. rewrite filter_app, filter_cons, decide_False by done.
  by rewrite filter_nil, app_nil_r.
Qed.

Lemma filter_app_singleton_eq {A} (P : A → Prop) `{!∀ x, Decision (P x)}
    (l : list A) (a : A) :
  P a → filter P (l ++ [a]) = filter P l ++ [a].
Proof.
  intros Ha. rewrite filter_app, filter_cons, decide_True by done.
  by rewrite filter_nil.
Qed.


Lemma NoDup_fmap_filter {A B} (f : A → B) (P : A → Prop)
    `{!∀ x, Decision (P x)} (l : list A) :
  NoDup (f <$> l) → NoDup (f <$> filter P l).
Proof.
  induction l as [|a l IH]; [done|].
  rewrite fmap_cons, NoDup_cons. intros [Ha Hl].
  rewrite filter_cons. destruct (decide (P a)); [|by apply IH].
  rewrite fmap_cons. apply NoDup_cons. split; [|by apply IH].
  intros Hin. apply Ha. apply list_elem_of_fmap in Hin as (x & -> & Hx).
  apply list_elem_of_filter in Hx as [_ Hx].
  apply list_elem_of_fmap. by exists x.
Qed.

(** Replacing the rows of one key by a new row keeps the keys unique. *)
Lemma NoDup_replace {A} (key : A → string) (k : string) (row : A) (l : list A) :
  key row = k → NoDup (key <$> l) →
  NoDup (key <$> (filter (λ x, key x ≠ k) l ++ [row])).
Proof.
  intros Hk Hl. rewrite fmap_app. apply NoDup_app. split_and!.
  - by apply NoDup_fmap_filter.
  - intros x Hx Hin. apply list_elem_of_fmap in Hx as (y & -> & Hy).
    apply list_elem_of_filter in Hy as [Hy _].
    simpl in Hin. apply list_elem_of_singleton in Hin. congruence.
  - simpl. apply NoDup_singleton.
Qed.

(** X2. The writes of [DatabaseManager] keep the declared keys unique:
    after [add_package], [remove_package], [add_dependency],
    [set_metadata], [write_hidden_file] and [delete_hidden_file] there is
    still one row per package name, dependency pair, metadata key and
    hidden path. *)
Theorem writes_keep_keys_unique (d : database) (now now' : Z)
    (name version filename : string) (size : Z) (auto_installed simulated : bool)
    (package depends_on key value path : string) (content : list Byte.byte) :
  keys_unique d →
  keys_unique (add_package now name version size filename auto_installed
                 simulated d).1
  ∧ keys_unique (remove_package name d).1
  ∧ keys_unique (add_dependency package depends_on d).1
  ∧ keys_unique (set_metadata key value d).1
  ∧ keys_unique (write_hidden_file now now' path content d).1
  ∧ keys_unique (delete_hidden_file path d).1.
Proof.
  intros (Hp & He & Hm & Hh). unfold keys_unique. split_and!; simpl; try done.
  - by apply (NoDup_replace pkg_name).
  - by apply NoDup_fmap_filter.
  - by apply NoDup_filter.
  - unfold add_dependency. case_decide; simpl; by apply Hp.
  - unfold add_dependency. case_decide as Hin; simpl; [done|].
    apply NoDup_app. split_and!; [done| |apply NoDup_singleton].
    intros x Hx Hy. apply list_elem_of_singleton in Hy. by subst.
  - unfold add_dependency. case_decide; simpl; by apply Hm.
  - unfold add_dependency. case_decide; simpl; by apply Hh.
  - by apply (NoDup_replace meta_key).
  - by apply (NoDup_replace hf_path).
  - by apply NoDup_fmap_filter.
Qed.

Lemma writes_keep_keys_unique_witness :
  keys_unique package_db
  ∧ keys_unique (add_package 20 "vim" "9.1" 3600000 "vim-9.1.deb" false false
                   package_db).1.
Proof.
  assert (H : keys_unique package_db).
  { unfold keys_unique. split_and!; compute_done. }
  split; [exact H|].
  exact (proj1 (writes_keep_keys_unique package_db 20 0 "vim" "9.1"
                  "vim-9.1.deb" 3600000 false false "" "" "" "" "" [] H)).
Defined.

Lemma by_pkg_name_trans : Transitive by_pkg_name.
Proof. intros a b c. unfold by_pkg_name. apply transitivity. Qed.

Lemma by_pkg_name_total : Total by_pkg_name.
Proof. intros a b. unfold by_pkg_name. apply total, _. Qed.

Lemma by_path_trans : Transitive by_path.
Proof. intros a b c. unfold by_path. apply transitivity. Qed.

Lemma by_path_total : Total by_path.
Proof. intros a b. unfold by_path. apply total, _. Qed.

(** X3. [get_all_packages] returns every row of the package table once,
    ordered by name; [list_hidden_files] lists every hidden file once with
    its size and modified time, ordered by path. *)
Theorem listings_sorted_by_key (d : database) :
  get_all_packages d ≡ₚ packages d
  ∧ StronglySorted String.le (pkg_name <$> get_all_packages d)
  ∧ list_hidden_files d
    ≡ₚ (λ f, (hf_path f, hf_size f, hf_modified_time f)) <$> hidden_files d
  ∧ StronglySorted String.le ((λ r, r.1.1) <$> list_hidden_files d).
Proof.
  unfold get_all_packages, list_hidden_files. split_and!.
  - apply merge_sort_Permutation.
  - pose proof (@StronglySorted_merge_sort _ by_pkg_name _ by_pkg_name_trans
                  by_pkg_name_total (packages d)) as H.
    induction H as [|a l Hl IH Ha]; [constructor|].
    rewrite fmap_cons. constructor; [exact IH|].
    apply Forall_fmap. exact Ha.
  - by rewrite merge_sort_Permutation.
  - pose proof (@StronglySorted_merge_sort _ by_path _ by_path_trans
                  by_path_total (hidden_files d)) as H.
    induction H as [|a l Hl IH Ha]; [constructor|].
    rewrite !fmap_cons. constructor; [exact IH|].
    apply Forall_fmap, Forall_fmap. exact Ha.
Qed.

(** X4. [add_dependency] records the edge and is idempotent: the first
    call leaves the edge in the table, a second call with the same pair
    changes nothing, and the edges there before stay, in their order, in
    front of it. *)
Theorem add_dependency_idempotent (package depends_on : string) (d : database) :
  let first := add_dependency package depends_on d in
  let second := add_dependency package depends_on first.1 in
  first.2 = true ∧ second = (first.1, true)
  ∧ DependencyRow package depends_on ∈ dependencies first.1
  ∧ dependencies d `prefix_of` dependencies first.1
  ∧ packages first.1 = packages d.
Proof.
  cbv zeta. unfold add_dependency.
  destruct (decide (DependencyRow package depends_on ∈ dependencies d))
    as [Hin|Hout]; simpl.
  - rewrite decide_True by done. done.
  - rewrite decide_True by (apply elem_of_app; right; left).
    split_and!; try done.
    + apply elem_of_app; right; left.
    + by apply prefix_app_r.
Qed.

Lemma head_filter_None {A} (P : A → Prop) `{!∀ x, Decision (P x)} (l : list A) :
  head (filter P l) = None ↔ Forall (λ x, ¬ P x) l.
Proof.
  rewrite head_None. split.
  - intros Hnil. apply Forall_forall. intros x Hx Hp.
    assert (Hin : x ∈ filter P l) by (by apply list_elem_of_filter).
    rewrite Hnil in Hin. by apply elem_of_nil in Hin.
  - intros Hall. induction Hall as [|a l Ha _ IH]; [done|].
    by rewrite filter_cons, decide_False.
Qed.

(** X5. [set_metadata] then [get_metadata] of the key gives the value
    set, the rows of other keys are untouched, and [get_metadata] answers
    [None] exactly for the keys with no row. *)
Theorem set_metadata_then_get (key value : string) (d : database) :
  let after := set_metadata key value d in
  after.2 = true
  ∧ get_metadata key after.1 = Some value
  ∧ filter (λ m, meta_key m ≠ key) (metadata after.1)
    = filter (λ m, meta_key m ≠ key) (metadata d)
  ∧ (∀ k, get_metadata k d = None ↔ k ∉ meta_key <$> metadata d).
Proof.
  cbv zeta. unfold set_metadata, get_metadata.
  cbn [fst snd metadata set_metadata_table].
  rewrite filter_app_singleton_eq by done.
  rewrite (filter_contradict (λ m, meta_key m = key)).
  rewrite filter_app_singleton_ne by (by intros []).
  rewrite filter_twice. split_and!; try done.
  intros k. rewrite fmap_None, head_filter_None, Forall_forall. split.
  - intros H Hin. apply list_elem_of_fmap in Hin as (m & -> & Hm).
    by apply (H m).
  - intros H m Hm Heq. apply H. apply list_elem_of_fmap. by exists m.
Qed.

(** X6. [delete_hidden_file] always succeeds; afterwards the path reads
    as [None] and the other files are untouched; deleting again changes
    nothing, and a write followed by the delete leaves what the delete
    alone leaves. *)
Theorem delete_hidden_file_removes (now1 now2 : Z) (path : string)
    (content : list Byte.byte) (d : database) :
  let after := delete_hidden_file path d in
  after.2 = true
  ∧ read_hidden_file path after.1 = None
  ∧ filter (λ f, hf_path f ≠ path) (hidden_files after.1)
    = filter (λ f, hf_path f ≠ path) (hidden_files d)
  ∧ delete_hidden_file path after.1 = after
  ∧ delete_hidden_file path (write_hidden_file now1 now2 path content d).1
    = after.
Proof.
  cbv zeta. unfold delete_hidden_file, read_hidden_file, get_hidden_file,
    write_hidden_file.
  cbn [fst snd hidden_files set_hidden_files].
  rewrite filter_twice, (filter_contradict (λ f, hf_path f = path)).
  rewrite filter_app_singleton_ne by (by intros []).
  rewrite filter_twice. done.
Qed.

(** X7. [remove_package] keeps the edges resolved: when every edge joined
    two packages of the table before, so it does after; the rows of the
    other packages are untouched; afterwards [check_package_exists]
    answers [False] for the name; and [remove_package_safe] does the same
    as [remove_package]. *)
Theorem remove_package_keeps_edges_resolved (name : string) (d : database) :
  edges_resolve d →
  edges_resolve (remove_package name d).1
  ∧ filter (λ p, pkg_name p ≠ name) (packages (remove_package name d).1)
    = filter (λ p, pkg_name p ≠ name) (packages d)
  ∧ check_package_exists name (remove_package name d).1 = false
  ∧ remove_package_safe name d = remove_package name d.
Proof.
  intros H. split; [|split_and!; [simpl; apply filter_twice| |done]]; cycle 1.
  { unfold check_package_exists. simpl.
    by rewrite (filter_contradict (λ p, pkg_name p = name)). }
  unfold edges_resolve in *. simpl.
  apply Forall_forall. intros e He.
  apply list_elem_of_filter in He as [Hne He].
  rewrite Forall_forall in H. destruct (H e He) as [H1 H2].
  assert (Hkeep : ∀ n, n ≠ name → n ∈ pkg_name <$> packages d →
            n ∈ pkg_name <$> filter (λ p, pkg_name p ≠ name) (packages d)).
  { intros n Hn Hin. apply list_elem_of_fmap in Hin as (p & -> & Hp).
    apply list_elem_of_fmap. exists p. split; [done|].
    by apply list_elem_of_filter. }
  split; apply Hkeep; try done.
  - intros Heq. apply Hne. by left.
  - intros Heq. apply Hne. by right.
Qed.

Lemma remove_package_keeps_edges_resolved_witness :
  edges_resolve MoreSamples.resolved_db ∧ edges_resolve (remove_package "libc" MoreSamples.resolved_db).1.
Proof.
  assert (H : edges_resolve MoreSamples.resolved_db) by (unfold edges_resolve; compute_done).
  split; [exact H|].
  exact (proj1 (remove_package_keeps_edges_resolved "libc" MoreSamples.resolved_db H)).
Defined.

End DatabaseManagerRestFacts.

(** ** AddPackageManager *)

Module AddPackageManagerFacts.

Import DatabaseManager DatabaseManagerRest AddPackageManager.
Import DatabaseManagerFacts DatabaseManagerRestFacts.



(** Without an auto-installed row nothing is orphaned. *)
Lemma no_auto_no_orphans (d : database) :
  Forall (λ p, pkg_auto_installed p = 0) (packages d) →
  get_orphaned_packages d = [].
Proof.
  intros H. unfold get_orphaned_packages.
  assert (Hnone : filter (λ p, pkg_auto_installed p = 1) (packages d) = []).
  { induction H as [|p l Hp _ IH]; [done|].
    rewrite filter_cons, decide_False by (rewrite Hp; lia). exact IH. }
  by rewrite Hnone.
Qed.

(** What one [add_dependency] does. *)
Lemma add_dependency_effect (name dep : string) (d : database) :
  let d' := (add_dependency name dep d).1 in
  packages d' = packages d ∧ metadata d' = metadata d
  ∧ hidden_files d' = hidden_files d
  ∧ DependencyRow name dep ∈ dependencies d'
  ∧ ∃ k, dependencies d' = dependencies d ++ k
         ∧ Forall (λ e, dep_package e = name) k.
Proof.
  cbv zeta. unfold add_dependency. case_decide as Hin; simpl.
  - split_and!; try done. exists []. by rewrite app_nil_r.
  - split_and!; try done.
    + apply elem_of_app. right. left.
    + eexists. split; [done|]. by apply Forall_singleton.
Qed.

(** The dependency loop of [install] leaves the other tables alone and
    appends edges that start at the package. *)
Lemma add_dependencies_frame name deps : ∀ d,
  let d' := foldl (λ d dep, (add_dependency name dep d).1) d deps in
  packages d' = packages d ∧ metadata d' = metadata d
  ∧ hidden_files d' = hidden_files d
  ∧ Forall (λ dep, DependencyRow name dep ∈ dependencies d') deps
  ∧ ∃ k, dependencies d' = dependencies d ++ k
         ∧ Forall (λ e, dep_package e = name) k.
Proof.
  induction deps as [|dep deps IH]; intros d; simpl.
  - split_and!; try done. exists []. by rewrite app_nil_r.
  - destruct (IH (add_dependency name dep d).1)
      as (Hp & Hm & Hh & Hall & k2 & Hk2 & Hall2).
    destruct (add_dependency_effect name dep d)
      as (Hp' & Hm' & Hh' & Hin & k1 & Hk1 & Hall1).
    split_and!.
    + by rewrite Hp.
    + by rewrite Hm.
    + by rewrite Hh.
    + constructor; [|done]. rewrite Hk2. apply elem_of_app. by left.
    + exists (k1 ++ k2). split.
      * by rewrite Hk2, Hk1, app_assoc.
      * by apply Forall_app.
Qed.



(** [_get_package_info] may load the index, never the database. *)
Lemma get_package_info_db (name : string) (m : manager) :
  pm_db (_get_package_info name m).1 = pm_db m.
Proof.
  unfold _get_package_info. case_decide; [|done]. by destruct (index_file m).
Qed.

(** Rows that all pass a filter stay. *)
Lemma filter_all {A} (P : A → Prop) `{!∀ x, Decision (P x)} (l : list A) :
  Forall P l → filter P l = l.
Proof.
  induction 1 as [|a l Ha _ IH]; [done|].
  by rewrite filter_cons, decide_True, IH.
Qed.



(** The two ways [install] can end. *)
Lemma install_shape (now : Z) (stamp package_name : string) (simulate : bool)
    (m : manager) :
  let r := install now stamp package_name simulate m in
  (r.2 ≠ Installed ∧ pm_db r.1 = pm_db m
   ∧ (is_Some (get_package package_name (pm_db m)) ↔ r.2 = AlreadyInstalled))
  ∨ (r.2 = Installed ∧ get_package package_name (pm_db m) = None
     ∧ ∃ pkg_info size,
         (_get_package_info package_name m).2 = Some pkg_info
         ∧ int_of_text (default "0" (pkg_info !! "Size")) = Some size
         ∧ pm_db r.1
           = (set_metadata "last_update" stamp
                (foldl (λ d dep, (add_dependency package_name dep d).1)
                   (add_package now package_name
                      (default "unknown" (pkg_info !! "Version")) size
                      (default "" (pkg_info !! "Filename")) false simulate
                      (pm_db m)).1
                   (depends_names (default "" (pkg_info !! "Depends"))))).1).
Proof.
  cbv zeta. unfold install.
  destruct (get_package package_name (pm_db m)) as [row|] eqn:Hget.
  { left. split_and!; [done|done|]. split; [done|]. intros _. by eexists. }
  pose proof (get_package_info_db package_name m) as Hinfo.
  destruct (_get_package_info package_name m) as [m1 found]. simpl in Hinfo.
  destruct found as [pkg_info|]; cycle 1.
  { left. split_and!; [done|done|]. split; [by intros [? [=]]|done]. }
  case_decide.
  { left. split_and!; [done|done|]. split; [by intros [? [=]]|done]. }
  destruct (int_of_text _) as [size|] eqn:Hsize.
  - right. split_and!; [done|done|]. exists pkg_info, size.
    split_and!; [done|done|]. cbn [fst snd pm_db set_pm_db]. by rewrite Hinfo.
  - left. split_and!; [done|done|]. split; [by intros [? [=]]|done].
Qed.







(** With nothing orphaned [autoremove] stops at once. *)
Lemma autoremove_nothing (m : manager) (line : string) :
  get_orphaned_packages (pm_db m) = [] → autoremove line m = (m, true).
Proof. intros H. unfold autoremove. by rewrite H. Qed.




(** X12. In a session that starts with no package and installs,
    removes, autoremoves and reloads the index, every row has
    [auto_installed] 0: [install] is the only writer and always passes
    [False].  So [get_orphaned_packages] finds nothing and [autoremove]
    answers [True] without asking and without removing anything. *)
Theorem session_never_autoremoves (m : manager) :
  session_reachable m →
  Forall (λ p, pkg_auto_installed p = 0) (packages (pm_db m))
  ∧ get_orphaned_packages (pm_db m) = []
  ∧ ∀ line, autoremove line m = (m, true).
Proof.
  intros Hreach.
  assert (Hall : Forall (λ p, pkg_auto_installed p = 0) (packages (pm_db m))).
  { induction Hreach as [m Hinit|m m' _ IH Hstep].
    - rewrite Hinit. constructor.
    - destruct Hstep as [now stamp name simulate m|name m|line m|index file m].
      + destruct (install_shape now stamp name simulate m)
          as [(_ & -> & _)|(_ & _ & info & size & _ & _ & ->)]; [done|].
        change (packages (set_metadata "last_update" stamp ?d).1)
          with (packages d).
        destruct (add_dependencies_frame name
                    (depends_names (default "" (info !! "Depends")))
                    (add_package now name
                       (default "unknown" (info !! "Version")) size
                       (default "" (info !! "Filename")) false simulate
                       (pm_db m)).1) as (-> & _).
        cbn [add_package fst packages set_packages].
        apply Forall_app. split; [|by apply Forall_singleton].
        apply Forall_forall. intros row Hrow.
        apply list_elem_of_filter in Hrow as [_ Hrow].
        rewrite Forall_forall in IH. by apply IH.
      + unfold remove. destruct (get_package name (pm_db m)); [|done].
        cbn [fst pm_db set_pm_db remove_package packages set_packages
             set_dependencies].
        apply Forall_forall. intros row Hrow.
        apply list_elem_of_filter in Hrow as [_ Hrow].
        rewrite Forall_forall in IH. by apply IH.
      + by rewrite autoremove_nothing by (by apply no_auto_no_orphans).
      + done. }
  split_and!; [done|by apply no_auto_no_orphans|].
  intros line. by apply autoremove_nothing, no_auto_no_orphans.
Qed.

Lemma session_never_autoremoves_witness :
  autoremove "n" (install 5 "5.0" "vim" false MoreSamples.fresh_manager).1
  = ((install 5 "5.0" "vim" false MoreSamples.fresh_manager).1, true).
Proof.
  exact (proj2 (proj2 (session_never_autoremoves _
    (session_more _ _
       (session_init MoreSamples.fresh_manager eq_refl)
       (session_install 5 "5.0" "vim" false MoreSamples.fresh_manager))))
    "n").
Defined.

End AddPackageManagerFacts.

(** ** The commands [dbfix] and [cclean] *)

Module MaintenanceFacts.

Import DatabaseManager DatabaseManagerRest AddPackageManager ContainerEngine
  Maintenance.
Import DatabaseManagerFacts DatabaseManagerRestFacts AddPackageManagerFacts.

(** A filter and its negation split the list. *)
Lemma filter_length_split {A} (P : A → Prop) `{!∀ x, Decision (P x)}
    (l : list A) :
  length l = (length (filter P l) + length (filter (λ x, ¬ P x) l))%nat.
Proof.
  induction l as [|a l IH]; [done|].
  rewrite !filter_cons. destruct (decide (P a)) as [Ha|Ha].
  - rewrite decide_False by tauto. simpl. lia.
  - rewrite decide_True by done. simpl. lia.
Qed.

(** The dependency table after [_cmd_dbfix], whichever branch ran. *)
Lemma dbfix_dependencies (d : database) :
  packages (_cmd_dbfix d).1 = packages d
  ∧ dependencies (_cmd_dbfix d).1
    = filter (λ e, ¬ dangling d e) (dependencies d).
Proof.
  unfold _cmd_dbfix. cbn [fst]. case_decide as Hpos; [done|].
  split; [done|]. symmetry. apply filter_all.
  assert (Hnil : filter (dangling d) (dependencies d) = []).
  { apply length_zero_iff_nil. lia. }
  apply Forall_forall. intros e He Hd.
  assert (Hin : e ∈ filter (dangling d) (dependencies d))
    by (by apply list_elem_of_filter).
  rewrite Hnil in Hin. by apply elem_of_nil in Hin.
Qed.

(** Occurrences of a value: none of them, or one at most, in a list
    without duplicates. *)
Lemma NoDup_count (l : list string) :
  NoDup l ↔ ∀ x, (length (filter (λ y, y = x) l) ≤ 1)%nat.
Proof.
  induction l as [|a l IH].
  - split; [intros _ x; simpl; lia|intros _; constructor].
  - rewrite NoDup_cons, IH. split.
    + intros [Ha Hl] x. rewrite filter_cons.
      destruct (decide (a = x)) as [->|Hne]; [|apply Hl].
      rewrite (KernelAddCLIFacts.filter_none _ l); [simpl; lia|].
      apply Forall_forall. intros y Hy ->. done.
    + intros Hc. split.
      * intros Ha. specialize (Hc a).
        rewrite filter_cons, decide_True in Hc by done.
        assert (Hin : a ∈ filter (λ y, y = a) l)
          by (by apply list_elem_of_filter).
        destruct (filter (λ y, y = a) l); [by apply elem_of_nil in Hin|].
        simpl in Hc. lia.
      * intros x. specialize (Hc x). rewrite filter_cons in Hc.
        destruct (decide (a = x)); simpl in Hc; lia.
Qed.

(** X13. [_cmd_dbfix] never touches the package table; of the
    dependency table it keeps exactly the edges whose two ends are
    installed packages, so afterwards every edge resolves; the number it
    reports is the number of edges it deleted; and a second run reports 0
    and changes nothing. *)
Theorem dbfix_removes_dangling_edges (d : database) :
  let r := _cmd_dbfix d in
  packages r.1 = packages d
  ∧ (∀ e, e ∈ dependencies r.1 ↔
          e ∈ dependencies d
          ∧ dep_package e ∈ pkg_name <$> packages d
          ∧ dep_depends_on e ∈ pkg_name <$> packages d)
  ∧ edges_resolve r.1
  ∧ length (dependencies d)
    = (length (dependencies r.1) + orphaned_deps r.2)%nat
  ∧ (_cmd_dbfix r.1).1 = r.1
  ∧ orphaned_deps (_cmd_dbfix r.1).2 = 0%nat.
Proof.
  cbv zeta. destruct (dbfix_dependencies d) as [Hp Hd].
  assert (Hkeep : ∀ e, e ∈ dependencies (_cmd_dbfix d).1 ↔
            e ∈ dependencies d
            ∧ dep_package e ∈ pkg_name <$> packages d
            ∧ dep_depends_on e ∈ pkg_name <$> packages d).
  { intros e. rewrite Hd, list_elem_of_filter. unfold dangling.
    destruct (decide (dep_package e ∈ pkg_name <$> packages d));
      destruct (decide (dep_depends_on e ∈ pkg_name <$> packages d)); tauto. }
  assert (Hres : edges_resolve (_cmd_dbfix d).1).
  { unfold edges_resolve. apply Forall_forall. intros e He.
    apply Hkeep in He. rewrite Hp. tauto. }
  assert (Hzero : filter (dangling (_cmd_dbfix d).1)
                    (dependencies (_cmd_dbfix d).1) = []).
  { apply KernelAddCLIFacts.filter_none, Forall_forall. intros e He.
    apply Hkeep in He. unfold dangling. rewrite Hp. tauto. }
  split_and!; [done|done|done| | |].
  - rewrite Hd. unfold _cmd_dbfix. cbn [snd orphaned_deps].
    rewrite (filter_length_split (dangling d) (dependencies d)). lia.
  - unfold _cmd_dbfix at 1. cbn [fst]. rewrite Hzero. done.
  - unfold _cmd_dbfix at 1. cbn [snd orphaned_deps]. by rewrite Hzero.
Qed.

(** X14. The duplicates that [_cmd_dbfix] reports are the names with
    more than one package row, each once with its number of rows; it
    reports none exactly when the names of the table are pairwise
    different, as the primary key of the table wants them. *)
Theorem dbfix_duplicates (d : database) :
  let names := pkg_name <$> packages d in
  (∀ n c, (n, c) ∈ duplicates (_cmd_dbfix d).2 ↔
          c = length (filter (λ n', n' = n) names) ∧ (1 < c)%nat)
  ∧ NoDup (duplicates (_cmd_dbfix d).2).*1
  ∧ (duplicates (_cmd_dbfix d).2 = [] ↔ NoDup names).
Proof.
  cbv zeta. set (names := pkg_name <$> packages d).
  assert (Hmem : ∀ n c, (n, c) ∈ duplicates (_cmd_dbfix d).2 ↔
            c = length (filter (λ n', n' = n) names) ∧ (1 < c)%nat).
  { intros n c. unfold _cmd_dbfix. cbn [snd duplicates]. fold names.
    rewrite list_elem_of_filter, list_elem_of_fmap. cbn [snd]. split.
    - intros [Hc (n' & [= -> ->] & _)]. done.
    - intros [-> Hc]. split; [done|]. exists n. split; [done|].
      apply elem_of_remove_dups. rewrite merge_sort_Permutation.
      destruct (filter (λ n', n' = n) names) as [|x l] eqn:Hf;
        [simpl in Hc; lia|].
      assert (Hx : x ∈ filter (λ n', n' = n) names) by (rewrite Hf; left).
      apply list_elem_of_filter in Hx as [-> Hx]. done. }
  split_and!; [exact Hmem| |].
  - unfold _cmd_dbfix. cbn [snd duplicates]. fold names.
    apply (NoDup_fmap_filter fst). rewrite <- list_fmap_compose.
    rewrite KernelAddCLIFacts.fmap_id_on by (by apply Forall_forall).
    apply NoDup_remove_dups.
  - rewrite NoDup_count. split.
    + intros Hnil x.
      destruct (decide (1 < length (filter (λ y, y = x) names))%nat)
        as [Hbig|]; [|lia].
      assert (Hin : (x, length (filter (λ y, y = x) names))
                    ∈ duplicates (_cmd_dbfix d).2) by (by apply Hmem).
      rewrite Hnil in Hin. by apply elem_of_nil in Hin.
    + intros Hc. apply elem_of_nil_inv. intros [n c] Hin.
      apply Hmem in Hin as [-> Hbig]. specialize (Hc n). lia.
Qed.



(** X16. [_cmd_cclean] acts only on the answer [yes], in any case and
    with spaces around it.  Then it reports the numbers of containers and
    images it deleted, leaves the three container tables and the bridge
    map empty and the package, dependency, metadata and hidden-file tables
    as they were; and since no image is left, [create_container] then
    fails for every image until one is created again.  On any other answer
    nothing changes. *)
Theorem cclean_confirmation (line : string) (e : engine) :
  let r := _cmd_cclean line e in
  (Text.lower (KernelAddCLI.strip line) ≠ "yes" → r = (e, None))
  ∧ (Text.lower (KernelAddCLI.strip line) = "yes" →
       r.2 = Some (length (containers (db e)), length (images (db e)))
       ∧ containers (db r.1) = [] ∧ images (db r.1) = []
       ∧ volumes (db r.1) = []
       ∧ net_containers (bridge0 r.1) = ∅
       ∧ subnet (bridge0 r.1) = subnet (bridge0 e)
       ∧ gateway (bridge0 r.1) = gateway (bridge0 e)
       ∧ packages (db r.1) = packages (db e)
       ∧ dependencies (db r.1) = dependencies (db e)
       ∧ metadata (db r.1) = metadata (db e)
       ∧ hidden_files (db r.1) = hidden_files (db e)
       ∧ ∀ now draws name image command ports vols env,
           create_container now draws name image command ports vols env r.1
           = (r.1, ImageNotFound)).
Proof.
  cbv zeta. unfold _cmd_cclean. split; intros H.
  - by rewrite decide_True.
  - rewrite decide_False by (by intros []). cbn [fst snd db bridge0].
    split_and!; done.
Qed.

End MaintenanceFacts.

(** ** ContainerEngine, the other methods and the invariants *)

Module ContainerEngineRestFacts.

Import ContainerEngine ContainerEngineRest Lifecycle Samples.
Import ContainerEngineFacts DatabaseManagerRestFacts AddPackageManagerFacts.

(** What the drawing loop returns, and when. *)
Lemma unique_id_spec (prefix : string) (taken draws : list string)
    (id : string) :
  unique_id prefix taken draws = Some id ↔
    ∃ before suffix after,
      draws = before ++ suffix :: after
      ∧ id = _generate_id prefix suffix
      ∧ (id ∉ taken)
      ∧ Forall (λ s, _generate_id prefix s ∈ taken) before.
Proof.
  induction draws as [|s draws IH]; simpl.
  - split; [done|]. intros (before & suffix & after & H & _).
    by destruct before.
  - destruct (decide (_generate_id prefix s ∈ taken)) as [Hin|Hout].
    + rewrite IH. split.
      * intros (before & suffix & after & -> & -> & Hfree & Hall).
        exists (s :: before), suffix, after. split_and!; try done.
        by constructor.
      * intros (before & suffix & after & Heq & -> & Hfree & Hall).
        destruct before as [|b before]; simpl in Heq.
        -- injection Heq as -> ->. done.
        -- injection Heq as -> ->. apply Forall_cons in Hall as [_ Hall].
           by exists before, suffix, after.
    + split.
      * intros [= <-]. exists [], s, draws. split_and!; try done.
      * intros (before & suffix & after & Heq & -> & Hfree & Hall).
        destruct before as [|b before]; simpl in Heq.
        -- by injection Heq as -> ->.
        -- injection Heq as -> ->. apply Forall_cons in Hall as [Hb _]. done.
Qed.

Lemma unique_id_fresh (prefix : string) (taken draws : list string)
    (id : string) :
  unique_id prefix taken draws = Some id → id ∉ taken.
Proof. intros H. apply unique_id_spec in H as (? & ? & ? & _ & _ & ? & _). done. Qed.

(** X17. The id that the drawing loop of [create_image] and
    [create_container] settles on is the first draw whose id is in no row:
    all draws before it are taken, and the id itself is not.  So the loop
    ends as soon as one draw is free, and never returns an id in use. *)
Theorem unique_id_first_free (prefix : string) (taken draws : list string)
    (id : string) :
  (unique_id prefix taken draws = Some id ↔
     ∃ before suffix after,
       draws = before ++ suffix :: after
       ∧ id = _generate_id prefix suffix
       ∧ (id ∉ taken)
       ∧ Forall (λ s, _generate_id prefix s ∈ taken) before)
  ∧ (is_Some (unique_id prefix taken draws) ↔
       ∃ s, s ∈ draws ∧ _generate_id prefix s ∉ taken).
Proof.
  split; [apply unique_id_spec|].
  induction draws as [|s draws IH]; simpl.
  - split; [by intros [? [=]]|]. intros (s & Hs & _).
    by apply elem_of_nil in Hs.
  - destruct (decide (_generate_id prefix s ∈ taken)) as [Hin|Hout].
    + rewrite IH. split.
      * intros (s' & Hs' & Hfree). exists s'. split; [by right|done].
      * intros (s' & Hs' & Hfree). exists s'. split; [|done].
        apply elem_of_cons in Hs' as [->|Hs']; done.
    + split; [|by eexists]. intros _. exists s. split; [left|done].
Qed.

(** The branches of [create_image]. *)
Lemma create_image_cases now draws name tag base e :
  let r := create_image now draws name tag base e in
  (∃ existing, find_image_by_tag name tag (db e) = Some existing
               ∧ r = (e, Some (img_id existing)))
  ∨ (find_image_by_tag name tag (db e) = None
     ∧ unique_id "img_" (img_id <$> images (db e)) draws = None
     ∧ r = (e, None))
  ∨ (∃ image_id,
       find_image_by_tag name tag (db e) = None
       ∧ unique_id "img_" (img_id <$> images (db e)) draws = Some image_id
       ∧ r.2 = Some image_id
       ∧ images (db r.1)
         = images (db e)
           ++ [ImageRow image_id name tag 100000000 now base
                 ["layer_base"; "layer_app"; "layer_config"]]
       ∧ containers (db r.1) = containers (db e)
       ∧ bridge0 r.1 = bridge0 e).
Proof.
  cbv zeta. unfold create_image.
  destruct (find_image_by_tag name tag (db e)) as [existing|] eqn:Hfind.
  { left. by exists existing. }
  destruct (unique_id _ _ _) as [image_id|] eqn:Hid.
  - right. right. exists image_id. done.
  - right. left. done.
Qed.

(** X18. [create_image] is idempotent on (name, tag): once it has
    returned an id, another call with that name and tag, at any time, with
    any draws and base image, returns the same id and changes nothing.
    It keeps image ids unique, leaves the containers and the bridge alone,
    and afterwards the image is found under its name, as
    [create_container] looks for it. *)
Theorem create_image_idempotent (now1 now2 : Z) (draws1 draws2 : list string)
    (name tag : string) (base1 base2 : option string) (e : engine)
    (id : string) :
  NoDup (img_id <$> images (db e)) →
  (create_image now1 draws1 name tag base1 e).2 = Some id →
  let first := create_image now1 draws1 name tag base1 e in
  create_image now2 draws2 name tag base2 first.1 = (first.1, Some id)
  ∧ NoDup (img_id <$> images (db first.1))
  ∧ containers (db first.1) = containers (db e)
  ∧ bridge0 first.1 = bridge0 e
  ∧ is_Some (find_image name (db first.1)).
Proof.
  intros Hnd Hid. cbv zeta.
  assert (Hname : ∀ d row, find_image_by_tag name tag d = Some row →
                           is_Some (find_image name d)).
  { intros d row Hrow. unfold find_image_by_tag in Hrow.
    apply head_Some in Hrow as [l' Hrow].
    assert (Hin : row ∈ filter (λ i, img_name i = name ∧ img_tag i = tag)
                          (images d)) by (rewrite Hrow; left).
    apply list_elem_of_filter in Hin as [[Hn _] Hin].
    unfold find_image.
    destruct (head (filter (λ i, img_name i = name ∨ img_id i = name)
                      (images d))) eqn:Hhead; [by eexists|].
    apply head_filter_None in Hhead. rewrite Forall_forall in Hhead.
    destruct (Hhead row Hin). by left. }
  destruct (create_image_cases now1 draws1 name tag base1 e)
    as [(existing & Hfind & Hr)|[(_ & _ & Hr)|(image_id & Hfind & Hfresh & Hret
                                              & Himgs & Hctrs & Hbr)]].
  - rewrite Hr in *. simpl in Hid. injection Hid as <-. simpl.
    split_and!; try done.
    + unfold create_image. by rewrite Hfind.
    + by eapply Hname.
  - rewrite Hr in Hid. done.
  - rewrite Hret in Hid. injection Hid as ->.
    assert (Hfound : find_image_by_tag name tag
                       (db (create_image now1 draws1 name tag base1 e).1)
                     = Some (ImageRow id name tag 100000000 now1 base1
                               ["layer_base"; "layer_app"; "layer_config"])).
    { unfold find_image_by_tag in *. rewrite Himgs.
      rewrite filter_app_singleton_eq by done.
      apply head_filter_None in Hfind.
      rewrite (KernelAddCLIFacts.filter_none _ (images (db e))); [done|].
      exact Hfind. }
    split_and!; try done.
    + unfold create_image at 1. by rewrite Hfound.
    + rewrite Himgs, fmap_app. apply NoDup_app. split_and!; [done| |].
      * intros x Hx Hy. apply list_elem_of_singleton in Hy. subst x.
        by apply unique_id_fresh in Hfresh.
      * apply NoDup_singleton.
    + by eapply Hname.
Qed.

Lemma create_image_idempotent_witness :
  NoDup (img_id <$> images (db (init empty_db)))
  ∧ (create_image 1 ["q7c2m9x4k1zd"] "alpine" "latest" None
       (init empty_db)).2 = Some "img_q7c2m9x4k1zd"
  ∧ create_image 2 ["aaaaaaaaaaaa"] "alpine" "latest" (Some "scratch")
      (create_image 1 ["q7c2m9x4k1zd"] "alpine" "latest" None
         (init empty_db)).1
    = ((create_image 1 ["q7c2m9x4k1zd"] "alpine" "latest" None
          (init empty_db)).1, Some "img_q7c2m9x4k1zd").
Proof.
  assert (H1 : NoDup (img_id <$> images (db (init empty_db))))
    by (simpl; constructor).
  assert (H2 : (create_image 1 ["q7c2m9x4k1zd"] "alpine" "latest" None
                  (init empty_db)).2 = Some "img_q7c2m9x4k1zd")
    by (vm_compute; reflexivity).
  split; [exact H1|]. split; [exact H2|].
  exact (proj1 (create_image_idempotent 1 2 ["q7c2m9x4k1zd"] ["aaaaaaaaaaaa"]
                  "alpine" "latest" None (Some "scratch") (init empty_db)
                  "img_q7c2m9x4k1zd" H1 H2)).
Defined.

(** X19. [create_container] returns an id exactly when the image
    resolves, no row has the name, and the drawing loop settles on that
    id; in every other case it returns [None] and the engine is as
    before. *)
Theorem create_container_succeeds_iff (now : Z) (draws : list string)
    (name image command : string) (ports vols : option (list string))
    (env : option (list (string * string))) (e : engine) :
  let r := create_container now draws name image command ports vols env e in
  (∀ cid, r.2 = Created cid ↔
          is_Some (find_image image (db e))
          ∧ Forall (λ c, ctr_name c ≠ name) (containers (db e))
          ∧ unique_id "ctr_" (ctr_id <$> containers (db e)) draws = Some cid)
  ∧ (returned r.2 = None → r.1 = e).
Proof.
  cbv zeta.
  destruct (create_container_cases now draws name image command ports
              vols env e)
    as [[Hi Hr]|[(Hi & (c & Hc & Hn) & Hr)
                |[(Hi & Hfree & Hid & Hr)|(img & cid' & Hi & Hfree & Hid & Hr)]]];
    rewrite Hr; cbn [fst snd returned]; (split; [intros cid|done]).
  - split; [done|]. rewrite Hi. by intros [[? [=]] _].
  - split; [done|]. intros (_ & Hall & _). rewrite Forall_forall in Hall.
    by destruct (Hall c Hc).
  - split; [done|]. rewrite Hid. by intros (_ & _ & [=]).
  - rewrite Hid. split.
    + intros [= ->]. split_and!; done.
    + by intros (_ & _ & [= ->]).
Qed.

(** Ids and names stay pairwise different under each operation. *)
Lemma create_container_keeps_keys now draws name image command ports vols env e :
  NoDup (ctr_id <$> containers (db e)) →
  NoDup (ctr_name <$> containers (db e)) →
  NoDup (ctr_id <$> containers
           (db (create_container now draws name image command ports vols env
                  e).1))
  ∧ NoDup (ctr_name <$> containers
             (db (create_container now draws name image command ports vols env
                    e).1)).
Proof.
  intros Hid Hname.
  destruct (create_container_cases now draws name image command ports
              vols env e)
    as [[_ Hr]|[(_ & _ & Hr)|[(_ & _ & _ & Hr)
                             |(img & cid & _ & Hfree & Hfresh & Hr)]]];
    rewrite Hr; cbn [fst db set_db containers set_containers]; try done.
  rewrite !fmap_app. split; apply NoDup_app; (split_and!; [done| |apply NoDup_singleton]).
  - intros x Hx Hy. apply list_elem_of_singleton in Hy. subst x.
    by apply unique_id_fresh in Hfresh.
  - intros x Hx Hy. apply list_elem_of_singleton in Hy. subst x.
    apply list_elem_of_fmap in Hx as (c & Hc & Hin).
    rewrite Forall_forall in Hfree. by destruct (Hfree c Hin).
Qed.

Lemma start_container_keeps_keys now pid key e :
  ctr_id <$> containers (db (start_container now pid key e).1)
  = ctr_id <$> containers (db e)
  ∧ ctr_name <$> containers (db (start_container now pid key e).1)
    = ctr_name <$> containers (db e).
Proof.
  unfold start_container. destruct (find_container key (db e)); [|done].
  cbn [fst db set_db set_net_containers containers set_containers].
  rewrite <- !list_fmap_compose. split; apply list_fmap_ext; intros ? r _;
    simpl; [apply mark_running_id|apply mark_running_name].
Qed.

Lemma stop_container_keeps_keys key e :
  ctr_id <$> containers (db (stop_container key e).1)
  = ctr_id <$> containers (db e)
  ∧ ctr_name <$> containers (db (stop_container key e).1)
    = ctr_name <$> containers (db e).
Proof.
  unfold stop_container. destruct (find_container key (db e)); [|done].
  cbn [fst db set_db set_net_containers containers set_containers].
  rewrite <- !list_fmap_compose. split; apply list_fmap_ext; intros ? r _;
    simpl; [apply mark_stopped_id|apply mark_stopped_name].
Qed.

(** X20. In every state reached from an empty [containers] table by
    creating, starting, stopping and removing containers and restarting
    the engine, no two rows share an id and no two rows share a name. *)
Theorem reachable_keys_unique (e : engine) :
  reachable e →
  NoDup (ctr_id <$> containers (db e))
  ∧ NoDup (ctr_name <$> containers (db e)).
Proof.
  induction 1 as [d Hd|e e' _ [IHid IHname] Hstep].
  - simpl. rewrite Hd. split; constructor.
  - destruct Hstep as [now draws name image command ports vols env e
                      |now pid key e Hpid|key e|key force e|e].
    + by apply create_container_keeps_keys.
    + destruct (start_container_keeps_keys now pid key e) as [-> ->]. done.
    + destruct (stop_container_keeps_keys key e) as [-> ->]. done.
    + unfold remove_container. destruct (find_container key (db e)); [|done].
      destruct (decide _); [done|].
      cbn [fst db set_db containers set_containers].
      split; by apply NoDup_fmap_filter.
    + done.
Qed.

Lemma reachable_keys_unique_witness :
  reachable web_running ∧ NoDup (ctr_id <$> containers (db web_running)).
Proof.
  assert (H : reachable web_running).
  { unfold web_running.
    apply (reachable_step with_web); [|apply step_start; lia].
    unfold with_web.
    apply (reachable_step with_image); [|apply step_create].
    unfold with_image.
    change (create_image 1 ["q7c2m9x4k1zd"] "alpine" "latest" None
              (init empty_db)).1
      with (init (Database [] [] [] []
                    [ImageRow "img_q7c2m9x4k1zd" "alpine" "latest" 100000000 1
                       None ["layer_base"; "layer_app"; "layer_config"]]
                    [] [])).
    apply reachable_init. reflexivity. }
  split; [exact H|]. exact (proj1 (reachable_keys_unique web_running H)).
Defined.

Lemma newer_first_trans : Transitive newer_first.
Proof. intros a b c. unfold newer_first. lia. Qed.

Lemma newer_first_total : Total newer_first.
Proof. intros a b. unfold newer_first. lia. Qed.

Lemma newer_image_first_trans : Transitive newer_image_first.
Proof. intros a b c. unfold newer_image_first. lia. Qed.

Lemma newer_image_first_total : Total newer_image_first.
Proof. intros a b. unfold newer_image_first. lia. Qed.

(** A list sorted by a key is sorted in its keys. *)
Lemma StronglySorted_fmap_key {A} (key : A → Z) (l : list A) :
  StronglySorted (λ a b, key b ≤ key a) l →
  StronglySorted (λ x y, y ≤ x) (key <$> l).
Proof.
  induction 1 as [|a l Hl IH Ha]; [constructor|].
  rewrite fmap_cons. constructor; [exact IH|]. apply Forall_fmap. exact Ha.
Qed.

(** X21. [list_containers] returns the rows of the table, all of them or
    the running ones, each once and the newest first; [list_images] does
    the same for images. *)
Theorem listings_newest_first (all_containers : bool) (e : engine) :
  list_containers all_containers e
  ≡ₚ (if all_containers then containers (db e)
      else filter (λ c, ctr_status c = "running") (containers (db e)))
  ∧ StronglySorted (λ x y, y ≤ x)
      (ctr_created_time <$> list_containers all_containers e)
  ∧ list_images e ≡ₚ images (db e)
  ∧ StronglySorted (λ x y, y ≤ x) (img_created_time <$> list_images e).
Proof.
  unfold list_containers, list_images. split_and!.
  - destruct all_containers; apply merge_sort_Permutation.
  - destruct all_containers;
      apply (StronglySorted_fmap_key ctr_created_time),
        (@StronglySorted_merge_sort _ newer_first _ newer_first_trans
           newer_first_total).
  - apply merge_sort_Permutation.
  - apply (StronglySorted_fmap_key img_created_time),
      (@StronglySorted_merge_sort _ newer_image_first _ newer_image_first_trans
         newer_image_first_total).
Qed.

Lemma mark_running_own now pid c :
  mark_running now pid (ctr_id c) c
  = ContainerRow (ctr_id c) (ctr_name c) (ctr_image_id c) "running"
      (ctr_created_time c) (Some now) (Some pid) (ctr_ip_address c)
      (ctr_ports c) (ctr_volumes c) (ctr_env_vars c) (ctr_command c).
Proof. unfold mark_running. by rewrite decide_True. Qed.




(** Each of create, start and stop keeps the bridge map and the table in
    agreement. *)
Lemma run_step_keeps_agreement (e e' : engine) :
  run_step e e' → bridge_agrees e → bridge_agrees e'.
Proof.
  intros Hstep [Hmap Hrows].
  destruct Hstep as [now draws name image command ports vols env e
                    |now pid key e|key e].
  - destruct (create_container_cases now draws name image command ports
                vols env e)
      as [[_ Hr]|[(_ & _ & Hr)|[(_ & _ & _ & Hr)|(img & cid & _ & _ & _ & Hr)]]];
      rewrite Hr; cbn [fst]; try done.
    split; cbn [db set_db bridge0 containers set_containers].
    + intros k entry Hk. destruct (Hmap k entry Hk) as (c & Hc & Hrest).
      exists c. split; [|done]. apply elem_of_app. by left.
    + intros c Hc Hrun. apply elem_of_app in Hc as [Hc|Hc]; [by apply Hrows|].
      apply list_elem_of_singleton in Hc. subst c. done.
  - unfold start_container.
    destruct (find_container key (db e)) as [c|] eqn:Hfind; [|done].
    apply find_container_Some in Hfind as [Hin _].
    split; cbn [fst db set_db bridge0 set_net_containers net_containers
                containers set_containers].
    + intros k entry Hk.
      destruct (decide (k = ctr_id c)) as [->|Hne].
      * rewrite lookup_insert_eq in Hk. injection Hk as <-.
        exists (mark_running now pid (ctr_id c) c). split.
        { apply list_elem_of_fmap. by exists c. }
        by rewrite mark_running_own.
      * rewrite lookup_insert_ne in Hk by done.
        destruct (Hmap k entry Hk) as (c0 & Hc0 & Hid & Hrest).
        exists c0. split; [|done]. apply list_elem_of_fmap. exists c0.
        split; [|done]. unfold mark_running.
        rewrite decide_False; [done|]. by rewrite Hid.
    + intros c' Hc' Hrun. apply list_elem_of_fmap in Hc' as (c0 & -> & Hc0).
      rewrite mark_running_id.
      destruct (decide (ctr_id c0 = ctr_id c)) as [->|Hne].
      * rewrite lookup_insert_eq. by eexists.
      * rewrite lookup_insert_ne by done. apply Hrows; [done|].
        unfold mark_running in Hrun. by rewrite decide_False in Hrun.
  - unfold stop_container.
    destruct (find_container key (db e)) as [c|] eqn:Hfind; [|done].
    split; cbn [fst db set_db bridge0 set_net_containers net_containers
                containers set_containers].
    + intros k entry Hk. apply lookup_delete_Some in Hk as [Hne Hk].
      destruct (Hmap k entry Hk) as (c0 & Hc0 & Hid & Hrest).
      exists c0. split; [|done]. apply list_elem_of_fmap. exists c0.
      split; [|done]. unfold mark_stopped.
      rewrite decide_False; [done|]. by rewrite Hid.
    + intros c' Hc' Hrun. apply list_elem_of_fmap in Hc' as (c0 & -> & Hc0).
      rewrite mark_stopped_id. unfold mark_stopped in Hrun.
      destruct (decide (ctr_id c0 = ctr_id c)) as [Heq|Hne]; [done|].
      rewrite lookup_delete_ne by done. by apply Hrows.
Qed.

Lemma run_reachable_keys_unique (e : engine) :
  run_reachable e → NoDup (ctr_id <$> containers (db e)).
Proof.
  intros H.
  assert (Hboth : NoDup (ctr_id <$> containers (db e))
                  ∧ NoDup (ctr_name <$> containers (db e))); [|tauto].
  induction H as [d Hd|e e' _ [IHid IHname] Hstep].
  - simpl. rewrite Hd. split; constructor.
  - destruct Hstep as [now draws name image command ports vols env e
                      |now pid key e|key e].
    + by apply create_container_keeps_keys.
    + destruct (start_container_keeps_keys now pid key e) as [-> ->]. done.
    + destruct (stop_container_keeps_keys key e) as [-> ->]. done.
Qed.

(** X23. While one engine creates, starts and stops containers and
    removes none, its bridge map mirrors the table: the keys of the map
    are the ids of the rows with status [running], each entry repeats the
    name, address and pid of its row, and the size of the map, from which
    [create_container] takes the next address, is the number of running
    containers. *)
Theorem run_bridge_agrees (e : engine) :
  run_reachable e →
  bridge_agrees e
  ∧ size (net_containers (bridge0 e))
    = length (filter (λ c, ctr_status c = "running") (containers (db e))).
Proof.
  intros Hrun.
  assert (Hagree : bridge_agrees e).
  { induction Hrun as [d Hd|e e' _ IH Hstep].
    - split; simpl.
      + intros k entry Hk. by rewrite lookup_empty in Hk.
      + rewrite Hd. by intros c ?%elem_of_nil.
    - by eapply run_step_keeps_agreement. }
  split; [done|].
  pose proof (run_reachable_keys_unique e Hrun) as Hnd.
  destruct Hagree as [Hmap Hrows].
  rewrite <- size_dom.
  assert (Hdom : dom (net_containers (bridge0 e))
                 ≡ list_to_set (ctr_id <$> filter (λ c, ctr_status c = "running")
                                             (containers (db e)))).
  { intros k. rewrite elem_of_dom, elem_of_list_to_set, list_elem_of_fmap.
    split.
    - intros [entry Hk]. destruct (Hmap k entry Hk) as (c & Hc & Hid & Hst & _).
      exists c. split; [done|]. by apply list_elem_of_filter.
    - intros (c & -> & Hc). apply list_elem_of_filter in Hc as [Hst Hc].
      by apply Hrows. }
  rewrite Hdom, size_list_to_set, length_fmap; [done|].
  by apply NoDup_fmap_filter.
Qed.

Lemma run_bridge_agrees_witness :
  run_reachable web_running
  ∧ size (net_containers (bridge0 web_running))
    = length (filter (λ c, ctr_status c = "running")
                (containers (db web_running))).
Proof.
  assert (H : run_reachable web_running).
  { unfold web_running. apply (run_more with_web); [|apply run_start].
    unfold with_web. apply (run_more with_image); [|apply run_create].
    unfold with_image.
    change (create_image 1 ["q7c2m9x4k1zd"] "alpine" "latest" None
              (init empty_db)).1
      with (init (Database [] [] [] []
                    [ImageRow "img_q7c2m9x4k1zd" "alpine" "latest" 100000000 1
                       None ["layer_base"; "layer_app"; "layer_config"]]
                    [] [])).
    apply run_init. reflexivity. }
  split; [exact H|]. exact (proj2 (run_bridge_agrees web_running H)).
Defined.





End ContainerEngineRestFacts.

(** ** MiniKernel *)

Module MiniKernelFacts.

Import ContainerEngine MiniKernel.

Lemma uint_of_string_zeros (k : nat) (s : string) :
  HexadecimalString.NilEmpty.uint_of_string (zeros k s)
  = Nat.iter k Hexadecimal.D0
      <$> HexadecimalString.NilEmpty.uint_of_string s.
Proof.
  induction k as [|k IH].
  - simpl. by destruct (HexadecimalString.NilEmpty.uint_of_string s).
  - change (zeros (S k) s) with (String "0"%char (zeros k s)).
    change (HexadecimalString.NilEmpty.uint_of_string
              (String "0"%char (zeros k s)))
      with (HexadecimalString.uint_of_char "0"%char
              (HexadecimalString.NilEmpty.uint_of_string (zeros k s))).
    rewrite IH. by destruct (HexadecimalString.NilEmpty.uint_of_string s).
Qed.

Lemma of_hex_uint_zeros (k : nat) (d : Hexadecimal.uint) :
  N.of_hex_uint (Nat.iter k Hexadecimal.D0 d) = N.of_hex_uint d.
Proof. induction k as [|k IH]; [done|]. simpl. exact IH. Qed.

(** An address reads back as the number it was made from. *)
Lemma address_index_mem_address (n : nat) :
  address_index (mem_address n) = Some (N.of_nat n).
Proof.
  unfold mem_address, hex_of_nat. cbv zeta.
  change (address_index ("0x" +:+ ?s))
    with (N.of_hex_uint <$> HexadecimalString.NilEmpty.uint_of_string s).
  rewrite uint_of_string_zeros, HexadecimalString.NilEmpty.usu. simpl.
  by rewrite of_hex_uint_zeros, HexadecimalN.Unsigned.of_to.
Qed.

Lemma mem_address_inj (i j : nat) : mem_address i = mem_address j → i = j.
Proof.
  intros H. apply (f_equal address_index) in H.
  rewrite !address_index_mem_address in H. injection H as H. lia.
Qed.

(** X26. What [sys_write] stores, [sys_read] gives back.  The file
    holds the data and its length; a file written again keeps its
    [created] time and takes the first clock reading as [modified], a new
    file takes the two readings in turn; other files are untouched.  A
    read leaves the state as it is exactly when the file does not exist,
    a successful read being logged. *)
Theorem write_then_read (stamp stamp' : string) (now1 now2 : Z)
    (filepath data : string) (s : kstate) :
  let written := (sys_write stamp now1 now2 filepath data s).1 in
  (sys_read stamp' filepath written).2 = data
  ∧ files written !! filepath
    = Some (match files s !! filepath with
            | Some old => KFile (file_created old) now1 data
                            (String.length data)
            | None => KFile now1 now2 data (String.length data)
            end)
  ∧ (∀ other, other ≠ filepath → files written !! other = files s !! other)
  ∧ (∀ path s0, (sys_read stamp' path s0).1 = s0 ↔ files s0 !! path = None).
Proof.
  cbv zeta.
  assert (Hfile : files (sys_write stamp now1 now2 filepath data s).1
                  = <[filepath := match files s !! filepath with
                                  | Some old => KFile (file_created old) now1
                                                  data (String.length data)
                                  | None => KFile now1 now2 data
                                              (String.length data)
                                  end]> (files s)).
  { unfold sys_write. by destruct (files s !! filepath). }
  split_and!.
  - unfold sys_read. rewrite Hfile, lookup_insert_eq.
    by destruct (files s !! filepath).
  - by rewrite Hfile, lookup_insert_eq.
  - intros other Hne. by rewrite Hfile, lookup_insert_ne.
  - intros path s0. unfold sys_read.
    destruct (files s0 !! path); [|done]. split; [|done].
    cbn [fst]. intros H. apply (f_equal (λ st, length (logs st))) in H.
    unfold _log in H. cbn [logs] in H. rewrite length_app in H. simpl in H.
    lia.
Qed.

(** The keys of a dict after an assignment. *)
Lemma dict_set_keys {V} (key : string) (value : V) (d : list (string * V)) :
  (dict_set key value d).*1
  = if decide (key ∈ d.*1) then d.*1 else d.*1 ++ [key].
Proof.
  induction d as [|[k v] d IH]; [done|].
  cbn [dict_set]. destruct (decide (k = key)) as [->|Hne].
  - rewrite decide_True by (rewrite fmap_cons; left). done.
  - rewrite !fmap_cons, IH. cbn [fst].
    destruct (decide (key ∈ d.*1)) as [Hin|Hout].
    + rewrite decide_True by (by right). done.
    + rewrite decide_False; [done|]. intros [?|?]%elem_of_cons; done.
Qed.

(** An assignment under a new key appends. *)
Lemma dict_set_new {V} (key : string) (value : V) (d : list (string * V)) :
  key ∉ d.*1 → dict_set key value d = d ++ [(key, value)].
Proof.
  induction d as [|[k v] d IH]; [done|].
  rewrite fmap_cons, not_elem_of_cons. cbn [fst]. intros [Hne Hout].
  cbn [dict_set]. rewrite decide_False by done. by rewrite IH.
Qed.

(** What the loop of [sys_unmount] does: the first device of the mount
    point is marked, the others are as they were. *)
Lemma unmount_first_spec (now : Z) (mountpoint : string)
    (d : list (string * device)) :
  (unmount_first now mountpoint d = None
   ∧ Forall (λ kd, dev_mountpoint kd.2 ≠ mountpoint) d)
  ∨ ∃ before k dev after,
      d = before ++ (k, dev) :: after
      ∧ Forall (λ kd, dev_mountpoint kd.2 ≠ mountpoint) before
      ∧ dev_mountpoint dev = mountpoint
      ∧ unmount_first now mountpoint d
        = Some (before ++ (k, Device (dev_device dev) (dev_mountpoint dev)
                                (dev_mounted dev) "unmounted" (Some now))
                          :: after).
Proof.
  induction d as [|[k dev] d IH]; [left; by split|].
  cbn [unmount_first]. destruct (decide (dev_mountpoint dev = mountpoint))
    as [Heq|Hne].
  - right. exists [], k, dev, d. by split_and!.
  - destruct IH as [[-> Hall]|(before & k' & dev' & after & -> & Hall & Heq
                               & ->)].
    + left. split; [done|]. by constructor.
    + right. exists ((k, dev) :: before), k', dev', after.
      split_and!; try done. by constructor.
Qed.

Lemma unmount_first_keys (now : Z) (mountpoint : string)
    (d d' : list (string * device)) :
  unmount_first now mountpoint d = Some d' → d'.*1 = d.*1.
Proof.
  destruct (unmount_first_spec now mountpoint d)
    as [[-> _]|(before & k & dev & after & -> & _ & _ & ->)]; [done|].
  intros [= <-]. by rewrite !fmap_app, !fmap_cons.
Qed.

Lemma dev_key_inj (i j : nat) : dev_key i = dev_key j → i = j.
Proof.
  unfold dev_key. intros H. apply Ipv4Facts.str_of_nat_inj.
  by apply (inj (String.app "dev_")) in H.
Qed.

(** With the devices numbered in order, [sys_mount] appends. *)
Lemma sys_mount_numbered (stamp : string) (now : Z)
    (device mountpoint : string) (s : kstate) :
  (devices s).*1 = dev_key <$> seq 0 (length (devices s)) →
  devices (sys_mount stamp now device mountpoint s).1
  = devices s ++ [(dev_key (length (devices s)),
                   Device device mountpoint now "online" None)].
Proof.
  intros Hnum. unfold sys_mount. cbn [fst _log devices]. fold (dev_key (length (devices s))).
  apply dict_set_new. rewrite Hnum. intros Hin.
  apply list_elem_of_fmap in Hin as (i & Heq & Hi).
  apply dev_key_inj in Heq. subst i. apply elem_of_seq in Hi. lia.
Qed.

(** What one call keeps. *)
Lemma kstep_keeps (s s' : kstate) :
  kstep s s' →
  (∀ pid, is_Some (processes s !! pid) → is_Some (processes s' !! pid))
  ∧ logs s `prefix_of` logs s'
  ∧ (devices s).*1 `prefix_of` (devices s').*1
  ∧ boot_time s' = boot_time s
  ∧ ((devices s).*1 = dev_key <$> seq 0 (length (devices s)) →
     (devices s').*1 = dev_key <$> seq 0 (length (devices s'))).
Proof.
  intros Hstep.
  destruct Hstep as [stamp filepath s|stamp now1 now2 filepath data s
                    |stamp now pid name command s|stamp now pid s
                    |stamp now sz label s|stamp addr s
                    |stamp now device mountpoint s|stamp now mountpoint s
                    |stamp message s].
  - unfold sys_read. destruct (files s !! filepath); cbn [fst];
      (split_and!; [done| |done|done|done]); [|done].
    by apply prefix_app_r.
  - unfold sys_write. destruct (files s !! filepath); cbn [fst];
      (split_and!; [done| |done|done|done]); by apply prefix_app_r.
  - unfold sys_exec. destruct (processes s !! pid) eqn:Hpid; cbn [fst];
      [by split_and!|].
    split_and!; [|by apply prefix_app_r|done|done|done].
    intros pid' Hsome. cbn [_log processes].
    destruct (decide (pid' = pid)) as [->|Hne].
    + rewrite lookup_insert_eq. by eexists.
    + by rewrite lookup_insert_ne.
  - unfold sys_kill. destruct (processes s !! pid) eqn:Hpid; cbn [fst];
      [|by split_and!].
    split_and!; [|by apply prefix_app_r|done|done|done].
    intros pid' Hsome. cbn [_log processes].
    destruct (decide (pid' = pid)) as [->|Hne].
    + rewrite lookup_insert_eq. by eexists.
    + by rewrite lookup_insert_ne.
  - unfold sys_mem_alloc. case_decide; cbn [fst]; [by split_and!|].
    split_and!; [done|by apply prefix_app_r|done|done|done].
  - unfold sys_mem_free. destruct (memory s !! addr); cbn [fst];
      [|by split_and!].
    split_and!; [done|by apply prefix_app_r|done|done|done].
  - split_and!.
    + done.
    + by apply prefix_app_r.
    + unfold sys_mount. cbn [fst _log devices]. rewrite dict_set_keys.
      case_decide; [done|]. by apply prefix_app_r.
    + done.
    + intros Hnum. rewrite (sys_mount_numbered _ _ _ _ _ Hnum).
      rewrite fmap_app, length_app, Hnum. cbn [length fmap list_fmap fst].
      by rewrite Nat.add_1_r, seq_S, fmap_app.
  - unfold sys_unmount.
    destruct (unmount_first now mountpoint (devices s)) as [d'|] eqn:Hun;
      cbn [fst]; [|by split_and!].
    pose proof (unmount_first_keys _ _ _ _ Hun) as Hkeys.
    split_and!; [done|by apply prefix_app_r| |done|].
    + cbn [_log devices]. by rewrite Hkeys.
    + cbn [_log devices]. rewrite Hkeys. intros Hnum.
      assert (Hlen : length d' = length (devices s))
        by (by rewrite <- (length_fmap fst d'), Hkeys, length_fmap).
      by rewrite Hlen.
  - split_and!; try done. by apply prefix_app_r.
Qed.

(** X27. Over any run of kernel calls the state only grows where it
    counts: a pid once used stays in the process table, killed or not, so
    [sys_exec] refuses it for ever; log entries are only appended; no
    device entry is dropped; the boot time stays.  If the devices are
    numbered in order at the start, as they are on an empty table, they
    still are at the end, and then [sys_mount] adds a device under the next
    number without replacing one. *)
Theorem kernel_run_only_grows (s s' : kstate) :
  rtc kstep s s' →
  (∀ pid, is_Some (processes s !! pid) → is_Some (processes s' !! pid))
  ∧ (∀ stamp now pid name command,
       is_Some (processes s !! pid) →
       sys_exec stamp now pid name command s'
       = (s', "ERROR: PID " +:+ Text.str_of_Z pid +:+ " already exists"))
  ∧ logs s `prefix_of` logs s'
  ∧ (devices s).*1 `prefix_of` (devices s').*1
  ∧ boot_time s' = boot_time s
  ∧ ((devices s).*1 = dev_key <$> seq 0 (length (devices s)) →
     (devices s').*1 = dev_key <$> seq 0 (length (devices s'))
     ∧ ∀ stamp now device mountpoint,
         devices (sys_mount stamp now device mountpoint s').1
         = devices s' ++ [(dev_key (length (devices s')),
                           Device device mountpoint now "online" None)]).
Proof.
  intros Hrun.
  assert (Hkeep : (∀ pid, is_Some (processes s !! pid) →
                          is_Some (processes s' !! pid))
                  ∧ logs s `prefix_of` logs s'
                  ∧ (devices s).*1 `prefix_of` (devices s').*1
                  ∧ boot_time s' = boot_time s
                  ∧ ((devices s).*1 = dev_key <$> seq 0 (length (devices s)) →
                     (devices s').*1
                     = dev_key <$> seq 0 (length (devices s')))).
  { induction Hrun as [s|s s1 s' Hstep _ IH]; [by split_and!|].
    destruct (kstep_keeps s s1 Hstep) as (H1 & H2 & H3 & H4 & H5).
    destruct IH as (I1 & I2 & I3 & I4 & I5).
    split_and!.
    - intros pid Hp. by apply I1, H1.
    - by etrans.
    - by etrans.
    - by rewrite I4.
    - intros Hn. by apply I5, H5. }
  destruct Hkeep as (H1 & H2 & H3 & H4 & H5).
  split_and!; [done| |done|done|done|].
  - intros stamp now pid name command Hp. unfold sys_exec.
    destruct (H1 pid Hp) as [p ->]. done.
  - intros Hn. split; [by apply H5|].
    intros stamp now device mountpoint. by apply sys_mount_numbered, H5.
Qed.

Lemma kernel_run_only_grows_witness :
  rtc kstep (sys_exec "t0" 1 7 "init" "/sbin/init" MoreSamples.booted).1
            (sys_kill "t1" 2 7
               (sys_exec "t0" 1 7 "init" "/sbin/init" MoreSamples.booted).1).1
  ∧ is_Some (processes
               (sys_kill "t1" 2 7
                  (sys_exec "t0" 1 7 "init" "/sbin/init"
                     MoreSamples.booted).1).1 !! 7).
Proof.
  assert (H : rtc kstep
                (sys_exec "t0" 1 7 "init" "/sbin/init" MoreSamples.booted).1
                (sys_kill "t1" 2 7
                   (sys_exec "t0" 1 7 "init" "/sbin/init"
                      MoreSamples.booted).1).1)
    by (apply rtc_once, kstep_kill).
  split; [exact H|].
  apply (proj1 (kernel_run_only_grows _ _ H) 7). vm_compute. by eexists.
Defined.

(** X28. While the blocks sit at the addresses below their number,
    [sys_mem_alloc] with a size that is not negative returns the address
    made from that number, which reads back as the number and is free; the
    block is stored there, the others stay, the blocks are one more and
    still sit below their number; and [sys_mem_free] of the address gives
    the memory back as it was.  A negative size stores nothing. *)
Theorem mem_alloc_when_dense (stamp stamp' : string) (now size : Z)
    (label : string) (s : kstate) :
  dense (memory s) →
  0 ≤ size →
  let addr := mem_address (base.size (memory s)) in
  let r := sys_mem_alloc stamp now size label s in
  r.2 = Some addr
  ∧ address_index addr = Some (N.of_nat (base.size (memory s)))
  ∧ memory s !! addr = None
  ∧ memory r.1
    = <[addr := MemBlock size label now
                  (replicate (Z.to_nat size) Byte.x00)]> (memory s)
  ∧ base.size (memory r.1) = S (base.size (memory s))
  ∧ dense (memory r.1)
  ∧ memory (sys_mem_free stamp' addr r.1).1 = memory s
  ∧ ∀ size', size' < 0 → sys_mem_alloc stamp now size' label s = (s, None).
Proof.
  intros Hdense Hsize. cbv zeta.
  assert (Hfree : memory s !! mem_address (base.size (memory s)) = None).
  { destruct (memory s !! mem_address (base.size (memory s))) eqn:Hl; [|done].
    destruct (Hdense (mem_address (base.size (memory s)))) as (i & Hi & Heq);
      [by eexists|].
    apply mem_address_inj in Heq. lia. }
  assert (Hmem : memory (sys_mem_alloc stamp now size label s).1
                 = <[mem_address (base.size (memory s))
                     := MemBlock size label now
                          (replicate (Z.to_nat size) Byte.x00)]> (memory s)).
  { unfold sys_mem_alloc. by rewrite decide_False by lia. }
  assert (Hgrow : base.size (memory (sys_mem_alloc stamp now size label s).1)
                  = S (base.size (memory s))).
  { rewrite Hmem. by apply map_size_insert_None. }
  split_and!.
  - unfold sys_mem_alloc. by rewrite decide_False by lia.
  - apply address_index_mem_address.
  - exact Hfree.
  - exact Hmem.
  - exact Hgrow.
  - intros a Ha. rewrite Hgrow. rewrite Hmem in Ha.
    destruct (decide (a = mem_address (base.size (memory s)))) as [->|Hne].
    + exists (base.size (memory s)). split; [lia|done].
    + rewrite lookup_insert_ne in Ha by done.
      destruct (Hdense a Ha) as (i & Hi & ->). exists i. split; [lia|done].
  - unfold sys_mem_free. rewrite Hmem, lookup_insert_eq.
    cbn [fst _log memory]. by rewrite delete_insert_id.
  - intros size' Hneg. unfold sys_mem_alloc. by rewrite decide_True.
Qed.

Lemma mem_alloc_when_dense_witness :
  dense (memory MoreSamples.booted)
  ∧ 0 ≤ 16
  ∧ (sys_mem_alloc "t0" 1 16 "a" MoreSamples.booted).2 = Some "0x00000000".
Proof.
  assert (H1 : dense (memory MoreSamples.booted)).
  { intros a [b Hb]. vm_compute in Hb. discriminate Hb. }
  assert (H2 : 0 ≤ 16) by lia.
  split; [exact H1|]. split; [exact H2|].
  exact (proj1 (mem_alloc_when_dense "t0" "t9" 1 16 "a" MoreSamples.booted
                  H1 H2)).
Defined.

(** X29. After a block other than the last is freed, the next
    [sys_mem_alloc] makes its address from the smaller number and lands on
    the block that still sits there: the new block replaces it, and one
    free and one allocation leave one block less than before. *)
Theorem mem_alloc_after_free_overwrites (stamp stamp' : string) (now size : Z)
    (label addr : string) (freed last : mem_block) (s : kstate) :
  0 ≤ size →
  memory s !! addr = Some freed →
  memory s !! mem_address (base.size (memory s) - 1) = Some last →
  addr ≠ mem_address (base.size (memory s) - 1) →
  let s1 := (sys_mem_free stamp addr s).1 in
  let r := sys_mem_alloc stamp' now size label s1 in
  r.2 = Some (mem_address (base.size (memory s) - 1))
  ∧ memory s1 !! mem_address (base.size (memory s) - 1) = Some last
  ∧ memory r.1 !! mem_address (base.size (memory s) - 1)
    = Some (MemBlock size label now (replicate (Z.to_nat size) Byte.x00))
  ∧ base.size (memory r.1) = (base.size (memory s) - 1)%nat.
Proof.
  intros Hsize Hfreed Hlast Hne. cbv zeta.
  assert (Hmem1 : memory (sys_mem_free stamp addr s).1
                  = delete addr (memory s)).
  { unfold sys_mem_free. by rewrite Hfreed. }
  assert (Hsz1 : base.size (memory (sys_mem_free stamp addr s).1)
                 = (base.size (memory s) - 1)%nat).
  { rewrite Hmem1. erewrite map_size_delete_Some by done. lia. }
  assert (Hstill : memory (sys_mem_free stamp addr s).1
                   !! mem_address (base.size (memory s) - 1) = Some last).
  { rewrite Hmem1. by rewrite lookup_delete_ne. }
  assert (Hmem2 : memory (sys_mem_alloc stamp' now size label
                            (sys_mem_free stamp addr s).1).1
                  = <[mem_address (base.size (memory s) - 1)
                      := MemBlock size label now
                           (replicate (Z.to_nat size) Byte.x00)]>
                      (memory (sys_mem_free stamp addr s).1)).
  { unfold sys_mem_alloc. rewrite decide_False by lia.
    cbn [fst _log memory]. by rewrite Hsz1. }
  split_and!.
  - unfold sys_mem_alloc. rewrite decide_False by lia. cbn [snd].
    by rewrite Hsz1.
  - exact Hstill.
  - by rewrite Hmem2, lookup_insert_eq.
  - rewrite Hmem2, map_size_insert_Some; [exact Hsz1|by eexists].
Qed.

Lemma mem_alloc_after_free_overwrites_witness :
  0 ≤ 8
  ∧ memory MoreSamples.two_blocks !! "0x00000000"
    = Some (MemBlock 16 "a" 1 (replicate 16 Byte.x00))
  ∧ base.size
      (memory (sys_mem_alloc "t3" 4 8 "c"
                 (sys_mem_free "t2" "0x00000000" MoreSamples.two_blocks).1).1)
    = 1%nat.
Proof.
  assert (H1 : 0 ≤ 8) by lia.
  assert (H2 : memory MoreSamples.two_blocks !! "0x00000000"
               = Some (MemBlock 16 "a" 1 (replicate 16 Byte.x00)))
    by (vm_compute; reflexivity).
  assert (H3 : memory MoreSamples.two_blocks
               !! mem_address (base.size (memory MoreSamples.two_blocks) - 1)
               = Some (MemBlock 32 "b" 2 (replicate 32 Byte.x00)))
    by (vm_compute; reflexivity).
  assert (H4 : "0x00000000"
               ≠ mem_address (base.size (memory MoreSamples.two_blocks) - 1))
    by (vm_compute; discriminate).
  split; [exact H1|]. split; [exact H2|].
  exact (proj2 (proj2 (proj2
    (mem_alloc_after_free_overwrites "t2" "t3" 4 8 "c" "0x00000000" _ _
       MoreSamples.two_blocks H1 H2 H3 H4)))).
Defined.

(** X30. [sys_unmount] reaches the first device of the mount point and
    no other: it marks that device unmounted with the clock reading,
    whatever its status was, and leaves every other device as it is.  A
    second [sys_unmount] of the mount point marks the same device again
    with the later reading, so a device mounted on the same point further
    down is never unmounted.  With no device on the mount point the state
    does not change. *)
Theorem unmount_reaches_first_only (stamp stamp' : string) (now now' : Z)
    (mountpoint : string) (before after : list (string * device))
    (k : string) (dev : device) (s : kstate) :
  devices s = before ++ (k, dev) :: after →
  Forall (λ kd, dev_mountpoint kd.2 ≠ mountpoint) before →
  dev_mountpoint dev = mountpoint →
  let once := (sys_unmount stamp now mountpoint s).1 in
  let twice := (sys_unmount stamp' now' mountpoint once).1 in
  devices once
  = before ++ (k, Device (dev_device dev) mountpoint (dev_mounted dev)
                    "unmounted" (Some now)) :: after
  ∧ devices twice
    = before ++ (k, Device (dev_device dev) mountpoint (dev_mounted dev)
                      "unmounted" (Some now')) :: after
  ∧ ∀ s0, Forall (λ kd, dev_mountpoint kd.2 ≠ mountpoint) (devices s0) →
          (sys_unmount stamp now mountpoint s0).1 = s0.
Proof.
  intros Hdev Hbefore Hmp. cbv zeta.
  assert (Hfirst : ∀ t d0,
            dev_mountpoint d0 = mountpoint →
            unmount_first t mountpoint (before ++ (k, d0) :: after)
            = Some (before ++ (k, Device (dev_device d0) (dev_mountpoint d0)
                                    (dev_mounted d0) "unmounted" (Some t))
                              :: after)).
  { intros t d0 Hd0. clear Hdev. induction Hbefore as [|[k0 dv0] l Hk0 _ IH].
    - simpl. by rewrite decide_True.
    - cbn [app unmount_first]. cbn [snd] in Hk0.
      rewrite decide_False by done. by rewrite IH. }
  assert (Honce : devices (sys_unmount stamp now mountpoint s).1
                  = before ++ (k, Device (dev_device dev) mountpoint
                                    (dev_mounted dev) "unmounted" (Some now))
                           :: after).
  { unfold sys_unmount. rewrite Hdev, (Hfirst now dev Hmp). cbn [fst _log devices].
    by rewrite Hmp. }
  split_and!.
  - exact Honce.
  - unfold sys_unmount at 1.
    rewrite Honce,
      (Hfirst now' (Device (dev_device dev) mountpoint (dev_mounted dev)
                      "unmounted" (Some now)) eq_refl).
    done.
  - intros s0 Hnone. unfold sys_unmount.
    destruct (unmount_first_spec now mountpoint (devices s0))
      as [[-> _]|(b & k' & d' & a & Heq & _ & Hd' & _)]; [done|].
    rewrite Heq in Hnone. apply Forall_app in Hnone as [_ Hnone].
    apply Forall_cons in Hnone as [Hbad _]. done.
Qed.

Lemma unmount_reaches_first_only_witness :
  devices (sys_mount "t1" 2 "/dev/sdb" "/mnt"
             (sys_mount "t0" 1 "/dev/sda" "/mnt" MoreSamples.booted).1).1
  = [] ++ ("dev_0", Device "/dev/sda" "/mnt" 1 "online" None)
          :: [("dev_1", Device "/dev/sdb" "/mnt" 2 "online" None)]
  ∧ Forall (λ kd : string * device, dev_mountpoint kd.2 ≠ "/mnt") []
  ∧ dev_mountpoint (Device "/dev/sda" "/mnt" 1 "online" None) = "/mnt"
  ∧ devices
      (sys_unmount "t3" 4 "/mnt"
         (sys_unmount "t2" 3 "/mnt"
            (sys_mount "t1" 2 "/dev/sdb" "/mnt"
               (sys_mount "t0" 1 "/dev/sda" "/mnt"
                  MoreSamples.booted).1).1).1).1
    = [] ++ ("dev_0", Device "/dev/sda" "/mnt" 1 "unmounted" (Some 4))
            :: [("dev_1", Device "/dev/sdb" "/mnt" 2 "online" None)].
Proof.
  assert (H1 : devices (sys_mount "t1" 2 "/dev/sdb" "/mnt"
                          (sys_mount "t0" 1 "/dev/sda" "/mnt"
                             MoreSamples.booted).1).1
               = [] ++ ("dev_0", Device "/dev/sda" "/mnt" 1 "online" None)
                       :: [("dev_1", Device "/dev/sdb" "/mnt" 2 "online" None)])
    by (vm_compute; reflexivity).
  assert (H2 : Forall (λ kd : string * device, dev_mountpoint kd.2 ≠ "/mnt") [])
    by constructor.
  assert (H3 : dev_mountpoint (Device "/dev/sda" "/mnt" 1 "online" None)
               = "/mnt") by reflexivity.
  split; [exact H1|]. split; [exact H2|]. split; [exact H3|].
  exact (proj1 (proj2 (unmount_reaches_first_only "t2" "t3" 3 4 "/mnt" [] _
                         "dev_0" _ _ H1 H2 H3))).
Defined.

End MiniKernelFacts.
